(** * Book-Management-API: the handlers of [main.go] and their contract

    The program is a single Go file: a process-wide [map[int]Book] guarded by
    one mutex, five handlers and the routing set up in [main].  The handlers
    are embedded as functions from the request and the current map to the
    response written and the map left behind.

    Library code is kept at its interface:
    - [encoding/json] decoding is a parameter of the development (a body is
      decoded into a freshly declared, zero [Book]);
    - the JSON text written by [Encode] is kept as the value encoded;
    - [strings.TrimPrefix], [strings.HasPrefix] and [strconv.Atoi] (64-bit
      [int]) are written out. *)

From stdpp Require Import gmap strings list fin_maps.
From Stdlib Require Import ZArith Ascii String Lia.

Local Open Scope Z_scope.
Local Open Scope string_scope.

(** ** Data model *)

(** [type Book struct]: Go's [int] is taken at 64 bits; the fields are
    listed in declaration order. *)
Record Book := mkBook {
  ID : Z;
  Title : string;
  Description : string;
  Author : string;
  PublicationYear : Z
}.

#[global] Instance Book_eq_dec : EqDecision Book.
Proof. solve_decision. Defined.

(** The zero value of [Book], what [var newBook Book] declares. *)
Definition zeroBook : Book :=
  mkBook 0 EmptyString EmptyString EmptyString 0.

(** [books = make(map[int]Book)]. *)
Abbreviation Store := (gmap Z Book).

(** The part of [*http.Request] the handlers read. *)
Record Request := mkRequest {
  Method : string;
  URL_Path : string;
  Body : string
}.

(** What a handler writes with [json.NewEncoder(w).Encode] (the value
    encoded), with [http.Error] (the message) or not at all.  Encoding a
    [Book] or a [map[int]Book] cannot fail, so the branches that answer 500
    are taken only when the connection itself fails, which is not part of
    this development. *)
Inductive Payload :=
| NoBody
| PlainText (msg : string)
| JSONBook (b : Book)
| JSONBooks (m : Store).

(** The response as the handler leaves it: the status line, the
    [Content-Type] header when the handler (or [http.Error]) sets one, and
    the body written. *)
Record Response := mkResponse {
  Status : Z;
  ContentType : option string;
  Written : Payload
}.

Definition StatusOK : Z := 200.
Definition StatusCreated : Z := 201.
Definition StatusNoContent : Z := 204.
Definition StatusBadRequest : Z := 400.
Definition StatusNotFound : Z := 404.
Definition StatusMethodNotAllowed : Z := 405.
Definition StatusConflict : Z := 409.

(** [http.Error(w, msg, code)]. *)
Definition http_Error (msg : string) (code : Z) : Response :=
  mkResponse code (Some "text/plain; charset=utf-8") (PlainText msg).

(** ** [strings] and [strconv] *)

Fixpoint strings_HasPrefix (s prefix : string) {struct prefix} : bool :=
  match prefix, s with
  | EmptyString, _ => true
  | String p prefix', String c s' =>
      if decide (p = c) then strings_HasPrefix s' prefix' else false
  | String _ _, EmptyString => false
  end.

Fixpoint drop_bytes (n : nat) (s : string) : string :=
  match n, s with
  | S n', String _ s' => drop_bytes n' s'
  | _, _ => s
  end.

(** [strings.TrimPrefix(s, prefix)]: [s[len(prefix):]] when [s] starts with
    [prefix], [s] itself otherwise. *)
Definition strings_TrimPrefix (s prefix : string) : string :=
  if strings_HasPrefix s prefix then drop_bytes (String.length prefix) s
  else s.

Definition is_digit (c : ascii) : bool :=
  let n := nat_of_ascii c in (48 <=? n)%nat && (n <=? 57)%nat.

Definition digit_val (c : ascii) : Z := Z.of_nat (nat_of_ascii c) - 48.

(** The digit loop of [strconv.ParseUint] in base 10: any byte that is not a
    decimal digit is a syntax error. *)
Fixpoint parse_digits (s : string) (acc : Z) : option Z :=
  match s with
  | EmptyString => Some acc
  | String c s' =>
      if is_digit c then parse_digits s' (acc * 10 + digit_val c) else None
  end.

Definition minInt : Z := - 2 ^ 63.
Definition maxInt : Z := 2 ^ 63 - 1.

(** [strconv.Atoi]: an optional sign, at least one decimal digit, nothing
    else, and a value that fits [int]; [None] stands for a non-nil error. *)
Definition strconv_Atoi (s : string) : option Z :=
  let '(neg, ds) :=
    match s with
    | String "-" rest => (true, rest)
    | String "+" rest => (false, rest)
    | _ => (false, s)
    end in
  match ds with
  | EmptyString => None
  | _ =>
      match parse_digits ds 0 with
      | None => None
      | Some n =>
          let v := if (neg : bool) then - n else n in
          if ((minInt <=? v) && (v <=? maxInt))%Z then Some v else None
      end
  end.

(** ** The handlers *)

Section Handlers.

(** [json.NewDecoder(r.Body).Decode(&v)]: the body read and the value [v]
    points to before the call; [Some v'] is the value after a call that
    returned a nil error, [None] a call that returned an error. *)
Variable json_Decode : string -> Book -> option Book.

(** [getAllBooks]: the header is set, 200 is written, the whole map is
    encoded. *)
Definition getAllBooks (r : Request) (books : Store) : Response * Store :=
  (mkResponse StatusOK (Some "application/json") (JSONBooks books), books).

(** [getBookById]: no [WriteHeader] call on the success path, so the first
    write sends 200. *)
Definition getBookById (r : Request) (books : Store) : Response * Store :=
  let idStr := strings_TrimPrefix (URL_Path r) "/books/" in
  match strconv_Atoi idStr with
  | None => (http_Error "Invalid book ID" StatusBadRequest, books)
  | Some id =>
      match books !! id with
      | None => (http_Error "Book not found" StatusNotFound, books)
      | Some book =>
          (mkResponse StatusOK (Some "application/json") (JSONBook book),
           books)
      end
  end.

Definition createBook (r : Request) (books : Store) : Response * Store :=
  match json_Decode (Body r) zeroBook with
  | None => (http_Error "Invalid input" StatusBadRequest, books)
  | Some newBook =>
      if decide (ID newBook = 0) then
        (http_Error "Book id is required" StatusBadRequest, books)
      else
        match books !! ID newBook with
        | Some _ => (http_Error "Book already exists" StatusConflict, books)
        | None =>
            (mkResponse StatusCreated None (JSONBook newBook),
             <[ID newBook := newBook]> books)
        end
  end.

Definition updateBook (r : Request) (books : Store) : Response * Store :=
  let idStr := strings_TrimPrefix (URL_Path r) "/books/" in
  match strconv_Atoi idStr with
  | None => (http_Error "Invalid book ID" StatusBadRequest, books)
  | Some id =>
      match books !! id with
      | None => (http_Error "Book not found" StatusNotFound, books)
      | Some _ =>
          match json_Decode (Body r) zeroBook with
          | None => (http_Error "Invalid input" StatusBadRequest, books)
          | Some updatedBook =>
              if decide (ID updatedBook = id) then
                (mkResponse StatusOK None (JSONBook updatedBook),
                 <[id := updatedBook]> books)
              else
                (http_Error
                   "Book id in the URL must match the id in the body"
                   StatusBadRequest, books)
          end
      end
  end.

Definition deleteBook (r : Request) (books : Store) : Response * Store :=
  let idStr := strings_TrimPrefix (URL_Path r) "/books/" in
  match strconv_Atoi idStr with
  | None => (http_Error "Invalid book ID" StatusBadRequest, books)
  | Some id =>
      match books !! id with
      | None => (http_Error "Book not found" StatusNotFound, books)
      | Some _ => (mkResponse StatusNoContent None NoBody, delete id books)
      end
  end.

(** The function literal [main] registers on the pattern ["/books/"]. *)
Definition booksItem (r : Request) (books : Store) : Response * Store :=
  if decide (Method r = "GET") then getBookById r books
  else if decide (Method r = "POST") then createBook r books
  else if decide (Method r = "PUT") then updateBook r books
  else if decide (Method r = "DELETE") then deleteBook r books
  else (http_Error "Unsupported method" StatusMethodNotAllowed, books).

(** [http.DefaultServeMux] with the two patterns of [main]: ["/books"]
    matches that path alone, ["/books/"] every path it is a prefix of, and
    any other path gets [http.NotFound].  Paths are taken in canonical
    form: a path that is not is answered by the mux itself with a redirect,
    before any pattern is tried, and leaves the map alone. *)
Definition ServeMux (r : Request) (books : Store) : Response * Store :=
  if decide (URL_Path r = "/books") then getAllBooks r books
  else if strings_HasPrefix (URL_Path r) "/books/" then booksItem r books
  else (http_Error "404 page not found" StatusNotFound, books).

End Handlers.

(** ** A decoder to run the handlers on concrete bodies

    The theorems below hold for every decoder.  To run the handlers on
    concrete requests, here is a decoder for the plainest bodies a client
    sends: one JSON object whose keys are the five field names as tagged in
    [Book] and whose values are integer literals (for [id] and
    [publication_year]) or strings without escapes (for the text fields).
    On such a body it fills the fields named, in order, and leaves the
    others as they were; like [Decode], it stops at the closing brace.  Any
    other body is reported as an error. *)

Inductive DecodeState :=
| AtStart
| AtFirstKey
| AtKey
| InKey (key : string)
| AtColon (key : string)
| AtValue (key : string)
| InString (key val : string)
| InNumber (key : string) (neg : bool) (digits : string)
| AfterValue.

Definition is_space (c : ascii) : bool :=
  let n := nat_of_ascii c in
  (n =? 32)%nat || (n =? 9)%nat || (n =? 10)%nat || (n =? 13)%nat.

Definition is_plain (c : ascii) : bool :=
  let n := nat_of_ascii c in
  (32 <=? n)%nat && (n <? 128)%nat && negb (n =? 34)%nat && negb (n =? 92)%nat.

Definition snoc (s : string) (c : ascii) : string :=
  s ++ String c EmptyString.

Definition set_string (key val : string) (v : Book) : option Book :=
  if decide (key = "title") then
    Some (mkBook (ID v) val (Description v) (Author v) (PublicationYear v))
  else if decide (key = "description") then
    Some (mkBook (ID v) (Title v) val (Author v) (PublicationYear v))
  else if decide (key = "author") then
    Some (mkBook (ID v) (Title v) (Description v) val (PublicationYear v))
  else None.

Definition set_int (key : string) (n : Z) (v : Book) : option Book :=
  if decide (key = "id") then
    Some (mkBook n (Title v) (Description v) (Author v) (PublicationYear v))
  else if decide (key = "publication_year") then
    Some (mkBook (ID v) (Title v) (Description v) (Author v) n)
  else None.

(** An integer literal of JSON: no sign but [-], no leading zero, and a
    value in the range of [int]. *)
Definition int_literal (neg : bool) (digits : string) : option Z :=
  match digits with
  | EmptyString => None
  | String "0" (String _ _) => None
  | _ =>
      match parse_digits digits 0 with
      | None => None
      | Some n =>
          let v := if neg then - n else n in
          if ((minInt <=? v) && (v <=? maxInt))%Z then Some v else None
      end
  end.

Fixpoint flat_scan (s : string) (st : DecodeState) (v : Book) : option Book :=
  match s with
  | EmptyString => None
  | String c s' =>
      let after_value (v : Book) :=
        if is_space c then flat_scan s' AfterValue v
        else if decide (c = ","%char) then flat_scan s' AtKey v
        else if decide (c = "}"%char) then Some v
        else None in
      match st with
      | AtStart =>
          if is_space c then flat_scan s' AtStart v
          else if decide (c = "{"%char) then flat_scan s' AtFirstKey v
          else None
      | AtFirstKey =>
          if is_space c then flat_scan s' AtFirstKey v
          else if decide (c = "034"%char) then flat_scan s' (InKey EmptyString) v
          else if decide (c = "}"%char) then Some v
          else None
      | AtKey =>
          if is_space c then flat_scan s' AtKey v
          else if decide (c = "034"%char) then flat_scan s' (InKey EmptyString) v
          else None
      | InKey key =>
          if decide (c = "034"%char) then flat_scan s' (AtColon key) v
          else if is_plain c then flat_scan s' (InKey (snoc key c)) v
          else None
      | AtColon key =>
          if is_space c then flat_scan s' (AtColon key) v
          else if decide (c = ":"%char) then flat_scan s' (AtValue key) v
          else None
      | AtValue key =>
          if is_space c then flat_scan s' (AtValue key) v
          else if decide (c = "034"%char) then
            flat_scan s' (InString key EmptyString) v
          else if decide (c = "-"%char) then
            flat_scan s' (InNumber key true EmptyString) v
          else if is_digit c then
            flat_scan s' (InNumber key false (String c EmptyString)) v
          else None
      | InString key val =>
          if decide (c = "034"%char) then
            match set_string key val v with
            | Some v' => flat_scan s' AfterValue v'
            | None => None
            end
          else if is_plain c then flat_scan s' (InString key (snoc val c)) v
          else None
      | InNumber key neg digits =>
          if is_digit c then flat_scan s' (InNumber key neg (snoc digits c)) v
          else
            match int_literal neg digits with
            | Some n =>
                match set_int key n v with
                | Some v' => after_value v'
                | None => None
                end
            | None => None
            end
      | AfterValue => after_value v
      end
  end.

Definition flat_Decode (body : string) (v : Book) : option Book :=
  flat_scan body AtStart v.

(** [quoted s] is [s] between double quotes, to write bodies down. *)
Definition quoted (s : string) : string :=
  String "034"%char (snoc s "034"%char).

Definition body_dune : string :=
  "{" ++ quoted "id" ++ ":7," ++ quoted "title" ++ ":" ++ quoted "Dune"
  ++ "," ++ quoted "author" ++ ": " ++ quoted "Frank Herbert" ++ ", "
  ++ quoted "publication_year" ++ ":1965}".

Definition dune : Book :=
  mkBook 7 "Dune" EmptyString "Frank Herbert" 1965.

(** The id a request path addresses on the item route: what the handlers
    get from [strings.TrimPrefix] followed by [strconv.Atoi]. *)
Definition path_id (r : Request) : option Z :=
  strconv_Atoi (strings_TrimPrefix (URL_Path r) "/books/").

Definition okJSON (p : Payload) : Response :=
  mkResponse StatusOK (Some "application/json") p.

(** ** Reachable stores

    The map starts empty ([make(map[int]Book)]) and changes only inside the
    handlers.  A store is reachable when some sequence of requests, served
    through the mux or given to [createBook], [updateBook] or [deleteBook]
    directly, leads to it. *)
Inductive reachable (json_Decode : string -> Book -> option Book)
  : Store -> Prop :=
| reachable_empty : reachable json_Decode ∅
| reachable_ServeMux r books :
    reachable json_Decode books ->
    reachable json_Decode (ServeMux json_Decode r books).2
| reachable_createBook r books :
    reachable json_Decode books ->
    reachable json_Decode (createBook json_Decode r books).2
| reachable_updateBook r books :
    reachable json_Decode books ->
    reachable json_Decode (updateBook json_Decode r books).2
| reachable_deleteBook r books :
    reachable json_Decode books ->
    reachable json_Decode (deleteBook r books).2.

(** Every entry sits under the id its own record carries. *)
Definition keyed_by_id (books : Store) : Prop :=
  forall k b, books !! k = Some b -> ID b = k.

(** The ids of the stored records, one per entry. *)
Definition stored_ids (books : Store) : list Z :=
  (fun kb => ID kb.2) <$> map_to_list books.

(** A field (or any other view) of the record that decoding [body] leaves
    as it found it: the payload does not mention it. *)
Definition omitted {A : Type} (json_Decode : string -> Book -> option Book)
    (field : Book -> A) (body : string) : Prop :=
  forall v v', json_Decode body v = Some v' -> field v' = field v.

(** The statuses of the error responses of this server. *)
Definition is_error_status (code : Z) : Prop :=
  code = StatusBadRequest \/ code = StatusNotFound
  \/ code = StatusMethodNotAllowed \/ code = StatusConflict.

(** Requests and bodies used in the runs below. *)
Definition body_id (n : string) : string :=
  "{" ++ quoted "id" ++ ":" ++ n ++ "}".

Definition body_title_only : string :=
  "{" ++ quoted "id" ++ ":1," ++ quoted "title" ++ ":" ++ quoted "B" ++ "}".

Definition body_first_edition : string :=
  "{" ++ quoted "id" ++ ":1," ++ quoted "title" ++ ":" ++ quoted "A" ++ ","
  ++ quoted "author" ++ ":" ++ quoted "X" ++ ","
  ++ quoted "publication_year" ++ ":2000}".

Definition first_edition : Book := mkBook 1 "A" EmptyString "X" 2000.
Definition title_only : Book := mkBook 1 "B" EmptyString EmptyString 0.

Definition POST (path body : string) : Request := mkRequest "POST" path body.
Definition PUT (path body : string) : Request := mkRequest "PUT" path body.
Definition GET (path : string) : Request := mkRequest "GET" path EmptyString.
Definition DELETE (path : string) : Request :=
  mkRequest "DELETE" path EmptyString.

Definition emma : Book := mkBook 5 "Emma" EmptyString "Austen" 1815.

Definition shelf_dune : Store := {[7 := dune]}.
Definition shelf_emma : Store := {[5 := emma]}.
Definition shelf_first_edition : Store := {[1 := first_edition]}.

(** A PUT to /books/5 whose body breaks off after the opening brace, and
    one whose body carries id 6. *)
Definition put_5_malformed : Request := PUT "/books/5" "{".
Definition put_5_id_6 : Request := PUT "/books/5" (body_id "6").

(** ** The handlers step by step, under the mutex

    Every handler begins with [mtx.Lock()] and [defer mtx.Unlock()] and then
    reads and writes the shared map.  To follow requests served at the same
    time, a handler is also written as the sequence of its actions on the
    shared state: locking, unlocking, and each access to [books].  What a
    goroutine computes between two such actions (decoding the body, parsing
    the path, building the response) touches nothing shared and is left to
    the continuation. *)

Inductive Prog (A : Type) : Type :=
| Return (a : A)
| Lock (k : Prog A)
| Unlock (k : Prog A)
| Load (id : Z) (k : option Book -> Prog A)
| StoreAt (id : Z) (b : Book) (k : Prog A)
| Remove (id : Z) (k : Prog A)
| ReadAll (k : Store -> Prog A).

Arguments Return {A} a.
Arguments Lock {A} k.
Arguments Unlock {A} k.
Arguments Load {A} id k.
Arguments StoreAt {A} id b k.
Arguments Remove {A} id k.
Arguments ReadAll {A} k.

Fixpoint bind {A B : Type} (p : Prog A) (f : A -> Prog B) : Prog B :=
  match p with
  | Return a => f a
  | Lock k => Lock (bind k f)
  | Unlock k => Unlock (bind k f)
  | Load id k => Load id (fun v => bind (k v) f)
  | StoreAt id b k => StoreAt id b (bind k f)
  | Remove id k => Remove id (bind k f)
  | ReadAll k => ReadAll (fun s => bind (k s) f)
  end.

(** [defer mtx.Unlock()]: the unlock runs when the body returns. *)
Definition deferUnlock {A : Type} (body : Prog A) : Prog A :=
  bind body (fun a => Unlock (Return a)).

(** [mtx.Lock(); defer mtx.Unlock(); body]. *)
Definition locked {A : Type} (body : Prog A) : Prog A :=
  Lock (deferUnlock body).

(** A body that leaves the mutex alone. *)
Fixpoint lock_free {A : Type} (p : Prog A) : Prop :=
  match p with
  | Return _ => True
  | Lock _ => False
  | Unlock _ => False
  | Load _ k => forall v, lock_free (k v)
  | StoreAt _ _ k => lock_free k
  | Remove _ k => lock_free k
  | ReadAll k => forall s, lock_free (k s)
  end.

Section Steps.

Variable json_Decode : string -> Book -> option Book.

Definition getAllBooks_body (r : Request) : Prog Response :=
  ReadAll (fun books => Return (okJSON (JSONBooks books))).

Definition getBookById_body (r : Request) : Prog Response :=
  match strconv_Atoi (strings_TrimPrefix (URL_Path r) "/books/") with
  | None => Return (http_Error "Invalid book ID" StatusBadRequest)
  | Some id =>
      Load id (fun found =>
        match found with
        | None => Return (http_Error "Book not found" StatusNotFound)
        | Some book => Return (okJSON (JSONBook book))
        end)
  end.

Definition createBook_body (r : Request) : Prog Response :=
  match json_Decode (Body r) zeroBook with
  | None => Return (http_Error "Invalid input" StatusBadRequest)
  | Some newBook =>
      if decide (ID newBook = 0) then
        Return (http_Error "Book id is required" StatusBadRequest)
      else
        Load (ID newBook) (fun found =>
          match found with
          | Some _ => Return (http_Error "Book already exists" StatusConflict)
          | None =>
              StoreAt (ID newBook) newBook
                (Return (mkResponse StatusCreated None (JSONBook newBook)))
          end)
  end.

Definition updateBook_body (r : Request) : Prog Response :=
  match strconv_Atoi (strings_TrimPrefix (URL_Path r) "/books/") with
  | None => Return (http_Error "Invalid book ID" StatusBadRequest)
  | Some id =>
      Load id (fun found =>
        match found with
        | None => Return (http_Error "Book not found" StatusNotFound)
        | Some _ =>
            match json_Decode (Body r) zeroBook with
            | None => Return (http_Error "Invalid input" StatusBadRequest)
            | Some updatedBook =>
                if decide (ID updatedBook = id) then
                  StoreAt id updatedBook
                    (Return (mkResponse StatusOK None (JSONBook updatedBook)))
                else
                  Return
                    (http_Error
                       "Book id in the URL must match the id in the body"
                       StatusBadRequest)
            end
        end)
  end.

Definition deleteBook_body (r : Request) : Prog Response :=
  match strconv_Atoi (strings_TrimPrefix (URL_Path r) "/books/") with
  | None => Return (http_Error "Invalid book ID" StatusBadRequest)
  | Some id =>
      Load id (fun found =>
        match found with
        | None => Return (http_Error "Book not found" StatusNotFound)
        | Some _ => Remove id (Return (mkResponse StatusNoContent None NoBody))
        end)
  end.

(** The five handlers as goroutines run them. *)
Inductive Call :=
| CallGetAllBooks (r : Request)
| CallGetBookById (r : Request)
| CallCreateBook (r : Request)
| CallUpdateBook (r : Request)
| CallDeleteBook (r : Request).

Definition call_body (c : Call) : Prog Response :=
  match c with
  | CallGetAllBooks r => getAllBooks_body r
  | CallGetBookById r => getBookById_body r
  | CallCreateBook r => createBook_body r
  | CallUpdateBook r => updateBook_body r
  | CallDeleteBook r => deleteBook_body r
  end.

Definition call_steps (c : Call) : Prog Response := locked (call_body c).

(** The same call as the function of the first part. *)
Definition call_fn (c : Call) (books : Store) : Response * Store :=
  match c with
  | CallGetAllBooks r => getAllBooks r books
  | CallGetBookById r => getBookById r books
  | CallCreateBook r => createBook json_Decode r books
  | CallUpdateBook r => updateBook json_Decode r books
  | CallDeleteBook r => deleteBook r books
  end.

End Steps.

(** *** Goroutines sharing the map and the mutex *)

(** One action of one goroutine: the program left to run, the mutex
    ([true] when held) and the map.  [None]: no action is possible now, the
    goroutine has returned, waits for the mutex, or would unlock a mutex
    that is not held. *)
Definition thread_step {A : Type} (p : Prog A) (mtx : bool) (books : Store)
  : option (Prog A * bool * Store) :=
  match p with
  | Return _ => None
  | Lock k => if mtx then None else Some (k, true, books)
  | Unlock k => if mtx then Some (k, false, books) else None
  | Load id k => Some (k (books !! id), mtx, books)
  | StoreAt id b k => Some (k, mtx, <[id := b]> books)
  | Remove id k => Some (k, mtx, delete id books)
  | ReadAll k => Some (k books, mtx, books)
  end.

Record Config (A : Type) := mkConfig {
  threads : list (Prog A);
  mtx : bool;
  shared : Store
}.

Arguments mkConfig {A} threads mtx shared.
Arguments threads {A} c.
Arguments mtx {A} c.
Arguments shared {A} c.

(** The goroutine number [i] takes its next action. *)
Definition sched_step {A : Type} (i : nat) (c : Config A)
  : option (Config A) :=
  match threads c !! i with
  | None => None
  | Some p =>
      match thread_step p (mtx c) (shared c) with
      | None => None
      | Some (p', m', s') => Some (mkConfig (<[i := p']> (threads c)) m' s')
      end
  end.

(** An execution is a schedule: which goroutine moves at each turn. *)
Fixpoint exec {A : Type} (sched : list nat) (c : Config A)
  : option (Config A) :=
  match sched with
  | [] => Some c
  | i :: sched' =>
      match sched_step i c with
      | None => None
      | Some c' => exec sched' c'
      end
  end.

Definition result {A : Type} (p : Prog A) : option A :=
  match p with
  | Return a => Some a
  | _ => None
  end.

(** The values returned, one per goroutine, once all of them have
    returned. *)
Definition results {A : Type} (c : Config A) : option (list A) :=
  mapM result (threads c).

(** All goroutines at the start of their handlers, the mutex free. *)
Definition start {A : Type} (bodies : list (Prog A)) (books : Store)
  : Config A :=
  mkConfig (locked <$> bodies) false books.

(** *** One at a time *)

(** A goroutine running alone to its end. *)
Fixpoint run {A : Type} (p : Prog A) (mtx : bool) (books : Store)
  : option (A * bool * Store) :=
  match p with
  | Return a => Some (a, mtx, books)
  | Lock k => if mtx then None else run k true books
  | Unlock k => if mtx then run k false books else None
  | Load id k => run (k (books !! id)) mtx books
  | StoreAt id b k => run k mtx (<[id := b]> books)
  | Remove id k => run k mtx (delete id books)
  | ReadAll k => run (k books) mtx books
  end.

(** The goroutines listed in [order] run one after the other, each from a
    free mutex to a free mutex. *)
Fixpoint serial {A : Type} (ps : list (Prog A)) (order : list nat)
    (books : Store) : option (list A * Store) :=
  match order with
  | [] => Some ([], books)
  | i :: order' =>
      match ps !! i with
      | None => None
      | Some p =>
          match run p false books with
          | Some (a, false, books1) =>
              match serial ps order' books1 with
              | Some (rs, books2) => Some (a :: rs, books2)
              | None => None
              end
          | _ => None
          end
      end
  end.

(** How many of the responses carry the status [code]. *)
Definition count_status (code : Z) (rs : list Response) : nat :=
  List.length (filter (fun r => Status r = code) rs).

(** The calls of [calls] served one after the other, as functions. *)
Fixpoint one_at_a_time (json_Decode : string -> Book -> option Book)
    (calls : list Call) (books : Store) : list Response * Store :=
  match calls with
  | [] => ([], books)
  | c :: calls' =>
      let '(resp, books1) := call_fn json_Decode c books in
      let '(rs, books2) := one_at_a_time json_Decode calls' books1 in
      (resp :: rs, books2)
  end.

(** A request whose body decodes to a book carrying the id [id]. *)
Definition creates_id (json_Decode : string -> Book -> option Book) (id : Z)
    (r : Request) : Prop :=
  exists b, json_Decode (Body r) zeroBook = Some b /\ ID b = id.

(** A call of [createBook] with such a request. *)
Definition creating (json_Decode : string -> Book -> option Book) (id : Z)
    (c : Call) : Prop :=
  exists r, c = CallCreateBook r /\ creates_id json_Decode id r.

(** *** Executions *)

(** The invariant of an execution from [start bodies books0].  [log] lists the goroutines that have
    returned, in the order they took the mutex; [holder] is the goroutine
    inside its critical section, if any.  The goroutines of [log], run one
    after the other from the initial map, return what they have returned
    here and leave the map as the holder found it; what is left of the
    holder's body will take it from the present map to where its whole body
    takes that map.  Everybody else still stands before [Lock]. *)
Definition holder_ok {A : Type} (bodies : list (Prog A)) (c : Config A)
    (books1 : Store) (holder : option nat) : Prop :=
  match holder with
  | None => mtx c = false /\ shared c = books1
  | Some i =>
      mtx c = true
      /\ exists body p,
           bodies !! i = Some body /\ lock_free p
           /\ threads c !! i = Some (deferUnlock p)
           /\ run (deferUnlock p) true (shared c)
              = run (deferUnlock body) true books1
  end.

Definition Inv {A : Type} (bodies : list (Prog A)) (books0 : Store)
    (c : Config A) (log : list nat) (holder : option nat) : Prop :=
  List.length (threads c) = List.length bodies
  /\ NoDup (log ++ option_list holder)%list
  /\ (forall i body, bodies !! i = Some body -> i ∉ log -> holder <> Some i ->
        threads c !! i = Some (locked body))
  /\ exists rs books1,
       serial (locked <$> bodies) log books0 = Some (rs, books1)
       /\ Forall2 (fun j a => threads c !! j = Some (Return a)) log rs
       /\ holder_ok bodies c books1 holder.


(** Each action consumes one constructor of one goroutine's program, so no
    schedule goes on for ever. *)
Definition moves {A : Type} (c' c : Config A) : Prop :=
  exists i, sched_step i c = Some c'.

Definition threads_move {A : Type} (ts' ts : list (Prog A)) : Prop :=
  exists i p p' m s m' s',
    ts !! i = Some p /\ thread_step p m s = Some (p', m', s')
    /\ ts' = <[i := p']> ts.


(** Three create requests that all carry id 9. *)
Definition three_creates : list Request :=
  [ POST "/books/9" (body_id "9");
    POST "/books/9"
      ("{" ++ quoted "id" ++ ":9," ++ quoted "title" ++ ":" ++ quoted "Nine"
       ++ "}");
    POST "/books/nine" (body_id "9") ].
(** ** Further notions used in the second part of the contract *)

(** The one id a request on the item route can write: the id its body
    carries for a POST, the id its path carries for a PUT or a DELETE. *)
Definition addressed_id (json_Decode : string -> Book -> option Book)
    (r : Request) : option Z :=
  if decide (Method r = "POST") then ID <$> json_Decode (Body r) zeroBook
  else if decide (Method r = "PUT") then path_id r
  else if decide (Method r = "DELETE") then path_id r
  else None.

(** A digit string: what [parse_digits] accepts. *)
Definition all_digits (s : string) : Prop :=
  exists n, parse_digits s 0 = Some n.

(** A goroutine that has taken the mutex and not yet given it back: it is
    past [Lock] and has not returned. *)
Definition in_section {A : Type} (p : Prog A) : bool :=
  match p with
  | Return _ => false
  | Lock _ => false
  | _ => true
  end.

(** A call that only reads the map. *)
Definition reading (c : Call) : Prop :=
  match c with
  | CallGetAllBooks _ => True
  | CallGetBookById _ => True
  | _ => False
  end.

(** The books a list of create requests carries, when every body decodes. *)
Definition decoded_books (json_Decode : string -> Book -> option Book)
    (reqs : list Request) : option (list Book) :=
  mapM (fun r => json_Decode (Body r) zeroBook) reqs.

(** More requests for the runs. *)
Definition body_id_titled (n title : string) : string :=
  "{" ++ quoted "id" ++ ":" ++ n ++ "," ++ quoted "title" ++ ":"
  ++ quoted title ++ "}".

Definition three_distinct_creates : list Request :=
  [ POST "/books/1" (body_id_titled "1" "One");
    POST "/books/2" (body_id_titled "2" "Two");
    POST "/books/3" (body_id_titled "3" "Three") ].

Definition shelf_two : Store := <[5 := emma]> shelf_dune.

Definition one_two_three : list Book :=
  [ mkBook 1 "One" EmptyString EmptyString 0;
    mkBook 2 "Two" EmptyString EmptyString 0;
    mkBook 3 "Three" EmptyString EmptyString 0 ].

Definition nine_titled : Book := mkBook 9 "Nine" EmptyString EmptyString 0.

(** ** What each handler does, case by case *)

Section Contract.

Variable json_Decode : string -> Book -> option Book.

Lemma booksItem_GET r books :
  Method r = "GET" -> booksItem json_Decode r books = getBookById r books.
Proof. intros H. unfold booksItem. rewrite H. reflexivity. Qed.

Lemma booksItem_POST r books :
  Method r = "POST" ->
  booksItem json_Decode r books = createBook json_Decode r books.
Proof. intros H. unfold booksItem. rewrite H. reflexivity. Qed.

Lemma booksItem_PUT r books :
  Method r = "PUT" ->
  booksItem json_Decode r books = updateBook json_Decode r books.
Proof. intros H. unfold booksItem. rewrite H. reflexivity. Qed.

Lemma booksItem_DELETE r books :
  Method r = "DELETE" -> booksItem json_Decode r books = deleteBook r books.
Proof. intros H. unfold booksItem. rewrite H. reflexivity. Qed.

Lemma booksItem_other r books :
  Method r <> "GET" -> Method r <> "POST" -> Method r <> "PUT" ->
  Method r <> "DELETE" ->
  booksItem json_Decode r books =
    (http_Error "Unsupported method" StatusMethodNotAllowed, books).
Proof. intros. unfold booksItem. repeat case_decide; congruence. Qed.

Lemma getBookById_found r books i b :
  path_id r = Some i -> books !! i = Some b ->
  getBookById r books = (okJSON (JSONBook b), books).
Proof. unfold path_id, getBookById. intros -> ->. reflexivity. Qed.

Lemma getBookById_absent r books i :
  path_id r = Some i -> books !! i = None ->
  getBookById r books = (http_Error "Book not found" StatusNotFound, books).
Proof. unfold path_id, getBookById. intros -> ->. reflexivity. Qed.

Lemma createBook_malformed r books :
  json_Decode (Body r) zeroBook = None ->
  createBook json_Decode r books =
    (http_Error "Invalid input" StatusBadRequest, books).
Proof. unfold createBook. intros ->. reflexivity. Qed.

Lemma createBook_zero_id r books b :
  json_Decode (Body r) zeroBook = Some b -> ID b = 0 ->
  createBook json_Decode r books =
    (http_Error "Book id is required" StatusBadRequest, books).
Proof. unfold createBook. intros -> H. case_decide; [reflexivity | done]. Qed.

Lemma createBook_conflict r books b old :
  json_Decode (Body r) zeroBook = Some b -> ID b <> 0 ->
  books !! ID b = Some old ->
  createBook json_Decode r books =
    (http_Error "Book already exists" StatusConflict, books).
Proof.
  unfold createBook. intros -> Hnz Hold.
  case_decide; [done |]. rewrite Hold. reflexivity.
Qed.

Lemma createBook_created r books b :
  json_Decode (Body r) zeroBook = Some b -> ID b <> 0 ->
  books !! ID b = None ->
  createBook json_Decode r books =
    (mkResponse StatusCreated None (JSONBook b), <[ID b := b]> books).
Proof.
  unfold createBook. intros -> Hnz Hnew.
  case_decide; [done |]. rewrite Hnew. reflexivity.
Qed.

Lemma updateBook_absent r books i :
  path_id r = Some i -> books !! i = None ->
  updateBook json_Decode r books =
    (http_Error "Book not found" StatusNotFound, books).
Proof. unfold path_id, updateBook. intros -> ->. reflexivity. Qed.

Lemma updateBook_malformed r books i old :
  path_id r = Some i -> books !! i = Some old ->
  json_Decode (Body r) zeroBook = None ->
  updateBook json_Decode r books =
    (http_Error "Invalid input" StatusBadRequest, books).
Proof. unfold path_id, updateBook. intros -> -> ->. reflexivity. Qed.

Lemma updateBook_mismatch r books i old b :
  path_id r = Some i -> books !! i = Some old ->
  json_Decode (Body r) zeroBook = Some b -> ID b <> i ->
  updateBook json_Decode r books =
    (http_Error "Book id in the URL must match the id in the body"
       StatusBadRequest, books).
Proof.
  unfold path_id, updateBook. intros -> -> -> Hne.
  case_decide; [done | reflexivity].
Qed.

Lemma updateBook_replaced r books i old b :
  path_id r = Some i -> books !! i = Some old ->
  json_Decode (Body r) zeroBook = Some b -> ID b = i ->
  updateBook json_Decode r books =
    (mkResponse StatusOK None (JSONBook b), <[i := b]> books).
Proof.
  unfold path_id, updateBook. intros -> -> -> Heq.
  case_decide; [reflexivity | done].
Qed.

Lemma deleteBook_present r books i old :
  path_id r = Some i -> books !! i = Some old ->
  deleteBook r books = (mkResponse StatusNoContent None NoBody, delete i books).
Proof. unfold path_id, deleteBook. intros -> ->. reflexivity. Qed.

Lemma deleteBook_absent r books i :
  path_id r = Some i -> books !! i = None ->
  deleteBook r books = (http_Error "Book not found" StatusNotFound, books).
Proof. unfold path_id, deleteBook. intros -> ->. reflexivity. Qed.

End Contract.

(** ** Runs on concrete requests *)

Example flat_Decode_dune : flat_Decode body_dune zeroBook = Some dune.
Proof. vm_compute. reflexivity. Qed.

Example flat_Decode_truncated :
  flat_Decode ("{" ++ quoted "id" ++ ":7") zeroBook = None.
Proof. vm_compute. reflexivity. Qed.

Example Atoi_examples :
  strconv_Atoi "7" = Some 7 /\ strconv_Atoi "-12" = Some (-12)
  /\ strconv_Atoi "+3" = Some 3 /\ strconv_Atoi "abc" = None
  /\ strconv_Atoi EmptyString = None /\ strconv_Atoi "-" = None
  /\ strconv_Atoi "9223372036854775807" = Some maxInt
  /\ strconv_Atoi "9223372036854775808" = None
  /\ strconv_Atoi "-9223372036854775808" = Some minInt.
Proof. vm_compute. repeat split; reflexivity. Qed.

(** ** Every id has a path

    The item-route lemmas speak of requests whose path parses to a given id.
    There is such a path for every value of [int]: its decimal writing. *)

Lemma snoc_cons c s d : snoc (String c s) d = String c (snoc s d).
Proof. reflexivity. Qed.

Lemma parse_digits_snoc s d acc :
  is_digit d = true ->
  parse_digits (snoc s d) acc
    = (fun n => n * 10 + digit_val d) <$> parse_digits s acc.
Proof.
  intros Hd. revert acc. induction s as [| c s IH]; intros acc.
  - simpl. rewrite Hd. reflexivity.
  - rewrite snoc_cons. simpl. destruct (is_digit c); [apply IH | reflexivity].
Qed.

Lemma digit_of_nat (k : nat) :
  (k < 10)%nat ->
  is_digit (ascii_of_nat (48 + k)) = true
  /\ digit_val (ascii_of_nat (48 + k)) = Z.of_nat k.
Proof.
  intros Hk. do 10 (destruct k as [| k]; [split; reflexivity |]). lia.
Qed.

Lemma digit_of_Z n :
  0 <= n < 10 ->
  exists d, is_digit d = true /\ digit_val d = n.
Proof.
  intros Hn. exists (ascii_of_nat (48 + Z.to_nat n)).
  destruct (digit_of_nat (Z.to_nat n)) as [Hd Hv]; [lia |].
  split; [exact Hd |]. rewrite Hv. lia.
Qed.

Lemma is_digit_not_sign d s :
  is_digit d = true ->
  strconv_Atoi (String d s)
    = match parse_digits (String d s) 0 with
      | None => None
      | Some v => if ((minInt <=? v) && (v <=? maxInt))%Z then Some v else None
      end.
Proof.
  destruct d as [[] [] [] [] [] [] [] []]; try discriminate; reflexivity.
Qed.

Lemma natural_has_digits n :
  0 <= n ->
  exists d s, is_digit d = true /\ parse_digits (String d s) 0 = Some n.
Proof.
  revert n. apply (well_founded_induction (Z.lt_wf 0)
    (fun n => 0 <= n ->
       exists d s, is_digit d = true /\ parse_digits (String d s) 0 = Some n)).
  intros n IH Hn. destruct (decide (n < 10)) as [Hlt | Hge].
  - destruct (digit_of_Z n) as (d & Hd & Hv); [lia |].
    exists d, EmptyString. split; [exact Hd |]. simpl. rewrite Hd.
    f_equal. lia.
  - destruct (IH (n / 10)) as (d & s & Hd & Hp).
    { split; [apply Z.div_pos; lia | apply Z.div_lt; lia]. }
    { apply Z.div_pos; lia. }
    destruct (digit_of_Z (n mod 10)) as (e & He & Hv).
    { apply Z.mod_pos_bound. lia. }
    exists d, (snoc s e). split; [exact Hd |].
    rewrite <- snoc_cons, parse_digits_snoc, Hp by exact He. simpl.
    f_equal. rewrite Hv. pose proof (Z.div_mod n 10). lia.
Qed.

Lemma Atoi_onto i :
  minInt <= i <= maxInt -> exists s, strconv_Atoi s = Some i.
Proof.
  intros [Hlo Hhi]. destruct (decide (0 <= i)) as [Hpos | Hneg].
  - destruct (natural_has_digits i Hpos) as (d & s & Hd & Hp).
    exists (String d s). rewrite is_digit_not_sign, Hp by exact Hd.
    destruct (Z.leb_spec minInt i); [| lia].
    destruct (Z.leb_spec i maxInt); [reflexivity | lia].
  - destruct (natural_has_digits (- i)) as (d & s & Hd & Hp); [lia |].
    exists (String "-" (String d s)).
    unfold strconv_Atoi. cbv zeta beta iota.
    change (match String "-" (String d s) with
            | String "-" rest => (true, rest)
            | String "+" rest => (false, rest)
            | _ => (false, String "-" (String d s))
            end) with (true, String d s).
    cbv beta iota. rewrite Hp. rewrite Z.opp_involutive.
    destruct (Z.leb_spec minInt i); [| lia].
    destruct (Z.leb_spec i maxInt); [reflexivity | lia].
Qed.

Lemma every_id_has_a_path i :
  minInt <= i <= maxInt ->
  exists path,
    strings_HasPrefix path "/books/" = true
    /\ forall method body, path_id (mkRequest method path body) = Some i.
Proof.
  intros Hi. destruct (Atoi_onto i Hi) as [s Hs].
  exists ("/books/" ++ s). split; [reflexivity |].
  intros method body. unfold path_id. simpl. exact Hs.
Qed.

(** ** The contract of the item route and of the collection route *)

Section RouteContract.

Variable json_Decode : string -> Book -> option Book.

Ltac handler_cases :=
  unfold ServeMux, booksItem, getAllBooks, getBookById, createBook,
    updateBook, deleteBook, http_Error;
  repeat (case_decide || case_match); simpl.

(** No handler touches the map on an error path: whenever the status written
    is one of 400, 404, 405, 409 the map is the one the handler found. *)
Lemma booksItem_error_keeps_store r books :
  is_error_status (Status (booksItem json_Decode r books).1) ->
  (booksItem json_Decode r books).2 = books.
Proof.
  unfold is_error_status. handler_cases; try reflexivity;
    intros [?|[?|[?|?]]]; discriminate.
Qed.

Lemma ServeMux_error_keeps_store r books :
  is_error_status (Status (ServeMux json_Decode r books).1) ->
  (ServeMux json_Decode r books).2 = books.
Proof.
  unfold ServeMux. repeat case_match; try reflexivity.
  apply booksItem_error_keeps_store.
Qed.

(** Each handler keeps every entry under the id of its record. *)
Lemma createBook_keyed r books :
  keyed_by_id books -> keyed_by_id (createBook json_Decode r books).2.
Proof.
  intros Hk. handler_cases; try assumption.
  intros k' b'. rewrite lookup_insert. case_decide; naive_solver.
Qed.

Lemma updateBook_keyed r books :
  keyed_by_id books -> keyed_by_id (updateBook json_Decode r books).2.
Proof.
  intros Hk. handler_cases; try assumption.
  intros k' b'. rewrite lookup_insert. case_decide; naive_solver.
Qed.

Lemma deleteBook_keyed r books :
  keyed_by_id books -> keyed_by_id (deleteBook r books).2.
Proof.
  intros Hk. handler_cases; try assumption.
  intros k' b'. rewrite lookup_delete. case_decide; naive_solver.
Qed.

Lemma ServeMux_keyed r books :
  keyed_by_id books -> keyed_by_id (ServeMux json_Decode r books).2.
Proof.
  intros Hk. unfold ServeMux, booksItem, getAllBooks.
  repeat case_decide; repeat case_match; simpl; try assumption;
    try (unfold getBookById; repeat case_match; simpl; assumption);
    auto using createBook_keyed, updateBook_keyed, deleteBook_keyed.
Qed.

Lemma reachable_keyed books :
  reachable json_Decode books -> keyed_by_id books.
Proof.
  induction 1;
    auto using createBook_keyed, updateBook_keyed, deleteBook_keyed,
      ServeMux_keyed.
  intros k b. rewrite lookup_empty. discriminate.
Qed.

(** In a store keyed by id the records' own ids are the keys, so they are
    pairwise distinct. *)
Lemma keyed_stored_ids books :
  keyed_by_id books -> stored_ids books = (map_to_list books).*1.
Proof.
  intros Hk. unfold stored_ids. apply list_fmap_ext.
  intros n [k b] Hl. simpl. apply Hk.
  apply elem_of_map_to_list. eapply list_elem_of_lookup_2. exact Hl.
Qed.

Lemma keyed_NoDup_ids books : keyed_by_id books -> NoDup (stored_ids books).
Proof.
  intros Hk. rewrite keyed_stored_ids by assumption.
  apply NoDup_fst_map_to_list.
Qed.

(** C1: a POST on the item route whose body decodes to a book with a nonzero
    id that is not stored is answered 201 with that book and stores it; a GET
    of that id right after is answered with the same record, and the
    collection route lists a map that holds it. *)
Theorem create_then_read r books b :
  Method r = "POST" ->
  json_Decode (Body r) zeroBook = Some b ->
  ID b <> 0 ->
  books !! ID b = None ->
  let books' := <[ID b := b]> books in
  booksItem json_Decode r books
    = (mkResponse StatusCreated None (JSONBook b), books')
  /\ (forall g, Method g = "GET" -> path_id g = Some (ID b) ->
        booksItem json_Decode g books' = (okJSON (JSONBook b), books'))
  /\ (forall l, URL_Path l = "/books" ->
        ServeMux json_Decode l books' = (okJSON (JSONBooks books'), books'))
  /\ books' !! ID b = Some b.
Proof.
  intros Hm Hd Hnz Hnew books'.
  assert (Hin : books' !! ID b = Some b) by apply lookup_insert_eq.
  repeat split.
  - rewrite booksItem_POST by assumption. by apply createBook_created.
  - intros g Hg Hp. rewrite booksItem_GET by assumption.
    by apply getBookById_found with (i := ID b).
  - intros l Hl. unfold ServeMux. rewrite Hl. reflexivity.
  - exact Hin.
Qed.

(** C2: in every store reachable from the empty one, each entry is keyed by
    the id of its own record, two entries whose records carry the same id
    are the same entry, and the ids of the stored records are pairwise
    distinct. *)
Theorem reachable_unique_ids books :
  reachable json_Decode books ->
  keyed_by_id books
  /\ (forall k1 k2 b1 b2,
        books !! k1 = Some b1 -> books !! k2 = Some b2 ->
        ID b1 = ID b2 -> k1 = k2 /\ b1 = b2)
  /\ NoDup (stored_ids books).
Proof.
  intros Hr. pose proof (reachable_keyed _ Hr) as Hk.
  split; [exact Hk | split].
  - intros k1 k2 b1 b2 H1 H2 Hid.
    assert (k1 = k2) as ->.
    { rewrite <- (Hk _ _ H1), <- (Hk _ _ H2). exact Hid. }
    split; congruence.
  - by apply keyed_NoDup_ids.
Qed.

(** C3, as the code has it: on a PUT whose path id parses, the lookup comes
    first.  An absent id is answered 404 whatever the body holds; only for a
    stored id is the body decoded, a malformed or id-mismatched body being
    answered 400 and a matching one 200. *)
Theorem update_checks_in_order r books i :
  Method r = "PUT" ->
  path_id r = Some i ->
  (books !! i = None ->
     booksItem json_Decode r books
       = (http_Error "Book not found" StatusNotFound, books))
  /\ (is_Some (books !! i) ->
      json_Decode (Body r) zeroBook = None ->
      booksItem json_Decode r books
        = (http_Error "Invalid input" StatusBadRequest, books))
  /\ (forall b, is_Some (books !! i) ->
      json_Decode (Body r) zeroBook = Some b -> ID b <> i ->
      booksItem json_Decode r books
        = (http_Error "Book id in the URL must match the id in the body"
             StatusBadRequest, books))
  /\ (forall b, is_Some (books !! i) ->
      json_Decode (Body r) zeroBook = Some b -> ID b = i ->
      booksItem json_Decode r books
        = (mkResponse StatusOK None (JSONBook b), <[i := b]> books)).
Proof.
  intros Hm Hp. rewrite booksItem_PUT by assumption. repeat split.
  - by apply updateBook_absent.
  - intros [old Hold] Hd. by apply updateBook_malformed with (i := i) (old := old).
  - intros b [old Hold] Hd Hne.
    by apply updateBook_mismatch with (i := i) (old := old) (b := b).
  - intros b [old Hold] Hd He.
    by apply updateBook_replaced with (old := old).
Qed.

(** C4: a PUT on a stored id whose body decodes to a book with that id is
    answered 200 and puts the decoded record in place of the old one; a GET
    right after returns exactly the decoded record, and every field the
    payload omits has the zero value, whatever the old record held. *)
Theorem update_replaces_wholesale r books i old b :
  Method r = "PUT" ->
  path_id r = Some i ->
  books !! i = Some old ->
  json_Decode (Body r) zeroBook = Some b ->
  ID b = i ->
  let books' := <[i := b]> books in
  booksItem json_Decode r books = (mkResponse StatusOK None (JSONBook b), books')
  /\ books' !! i = Some b
  /\ (forall g, Method g = "GET" -> path_id g = Some i ->
        booksItem json_Decode g books' = (okJSON (JSONBook b), books'))
  /\ (forall (A : Type) (field : Book -> A),
        omitted json_Decode field (Body r) -> field b = field zeroBook).
Proof.
  intros Hm Hp Hold Hd Hid books'.
  assert (Hin : books' !! i = Some b) by apply lookup_insert_eq.
  repeat split.
  - rewrite booksItem_PUT by assumption.
    by apply updateBook_replaced with (old := old).
  - exact Hin.
  - intros g Hg Hpg. rewrite booksItem_GET by assumption.
    by apply getBookById_found with (i := i).
  - intros A field Hom. by apply Hom.
Qed.

(** C5, as the code has it: a request answered 400, 404, 405 or 409 leaves
    the map as it was; a PUT whose body id differs from the path id is such
    a request, answered 400 when the path id is stored and 404 when it is
    not. *)
Theorem error_responses_keep_store r books :
  (is_error_status (Status (ServeMux json_Decode r books).1) ->
     (ServeMux json_Decode r books).2 = books)
  /\ (is_error_status (Status (booksItem json_Decode r books).1) ->
     (booksItem json_Decode r books).2 = books)
  /\ (forall i b,
        Method r = "PUT" -> path_id r = Some i ->
        json_Decode (Body r) zeroBook = Some b -> ID b <> i ->
        (booksItem json_Decode r books).2 = books
        /\ Status (booksItem json_Decode r books).1
             = match books !! i with
               | Some _ => StatusBadRequest
               | None => StatusNotFound
               end).
Proof.
  split; [apply ServeMux_error_keeps_store | split].
  - apply booksItem_error_keeps_store.
  - intros i b Hm Hp Hd Hne. rewrite booksItem_PUT by assumption.
    destruct (books !! i) as [old|] eqn:Hold.
    + by rewrite (updateBook_mismatch _ _ _ _ _ _ Hp Hold Hd Hne).
    + by rewrite (updateBook_absent _ _ _ _ Hp Hold).
Qed.

(** C6: a DELETE of a stored id is answered 204 with no body and removes the
    entry, so the same DELETE repeated at once is answered 404, as is a
    DELETE of any id that is not stored. *)
Theorem delete_twice r books i old :
  Method r = "DELETE" ->
  path_id r = Some i ->
  books !! i = Some old ->
  booksItem json_Decode r books
    = (mkResponse StatusNoContent None NoBody, delete i books)
  /\ delete i books !! i = None
  /\ (forall r', Method r' = "DELETE" -> path_id r' = Some i ->
        booksItem json_Decode r' (delete i books)
          = (http_Error "Book not found" StatusNotFound, delete i books))
  /\ (forall r' j books0, Method r' = "DELETE" -> path_id r' = Some j ->
        books0 !! j = None ->
        booksItem json_Decode r' books0
          = (http_Error "Book not found" StatusNotFound, books0)).
Proof.
  intros Hm Hp Hold.
  assert (Hgone : delete i books !! i = None) by apply lookup_delete_eq.
  repeat split.
  - rewrite booksItem_DELETE by assumption.
    by apply deleteBook_present with (old := old).
  - exact Hgone.
  - intros r' Hm' Hp'. rewrite booksItem_DELETE by assumption.
    by apply deleteBook_absent with (i := i).
  - intros r' j books0 Hm' Hp' Habs. rewrite booksItem_DELETE by assumption.
    by apply deleteBook_absent with (i := j).
Qed.

(** C7: a POST whose body does not decode is answered 400, one whose decoded
    id is zero is answered 400, one whose decoded nonzero id is stored is
    answered 409; in each of the three cases the status is not 201 and the
    map is unchanged. *)
Theorem create_rejections r books :
  Method r = "POST" ->
  (json_Decode (Body r) zeroBook = None ->
     booksItem json_Decode r books
       = (http_Error "Invalid input" StatusBadRequest, books))
  /\ (forall b, json_Decode (Body r) zeroBook = Some b -> ID b = 0 ->
     booksItem json_Decode r books
       = (http_Error "Book id is required" StatusBadRequest, books))
  /\ (forall b, json_Decode (Body r) zeroBook = Some b -> ID b <> 0 ->
     is_Some (books !! ID b) ->
     booksItem json_Decode r books
       = (http_Error "Book already exists" StatusConflict, books))
  /\ ((json_Decode (Body r) zeroBook = None
       \/ exists b, json_Decode (Body r) zeroBook = Some b
            /\ (ID b = 0 \/ is_Some (books !! ID b))) ->
      Status (booksItem json_Decode r books).1 <> StatusCreated
      /\ (booksItem json_Decode r books).2 = books).
Proof.
  intros Hm. rewrite booksItem_POST by assumption.
  assert (H1 : json_Decode (Body r) zeroBook = None ->
     createBook json_Decode r books
       = (http_Error "Invalid input" StatusBadRequest, books))
    by apply createBook_malformed.
  assert (H2 : forall b, json_Decode (Body r) zeroBook = Some b -> ID b = 0 ->
     createBook json_Decode r books
       = (http_Error "Book id is required" StatusBadRequest, books))
    by (intros b; apply createBook_zero_id).
  assert (H3 : forall b, json_Decode (Body r) zeroBook = Some b -> ID b <> 0 ->
     is_Some (books !! ID b) ->
     createBook json_Decode r books
       = (http_Error "Book already exists" StatusConflict, books)).
  { intros b Hd Hnz [old Hold]. by apply createBook_conflict with (b := b) (old := old). }
  repeat split; try assumption.
  - destruct H as [Hd | (b & Hd & [Hz | Hs])].
    + by rewrite H1.
    + by rewrite (H2 b).
    + destruct (decide (ID b = 0)); [by rewrite (H2 b) | by rewrite (H3 b)].
  - destruct H as [Hd | (b & Hd & [Hz | Hs])].
    + by rewrite H1.
    + by rewrite (H2 b).
    + destruct (decide (ID b = 0)); [by rewrite (H2 b) | by rewrite (H3 b)].
Qed.

(** C8: the item route answers two POST requests with the same body in the
    same way, from the same store, whatever their paths are: same response
    (status and body) and same resulting store. *)
Theorem create_ignores_path r1 r2 books :
  Method r1 = "POST" ->
  Method r2 = "POST" ->
  Body r1 = Body r2 ->
  booksItem json_Decode r1 books = booksItem json_Decode r2 books.
Proof.
  intros H1 H2 Hb. rewrite !booksItem_POST by assumption.
  unfold createBook. rewrite Hb. reflexivity.
Qed.

(** C10: a request whose path is exactly /books is answered by the list-all
    handler, 200 with the whole map, whatever its method; a 405 comes only
    from the item route, for a method other than GET, POST, PUT, DELETE. *)
Theorem collection_route_any_method r books :
  (URL_Path r = "/books" ->
     ServeMux json_Decode r books = getAllBooks r books
     /\ ServeMux json_Decode r books = (okJSON (JSONBooks books), books))
  /\ (Status (ServeMux json_Decode r books).1 = StatusMethodNotAllowed ->
      strings_HasPrefix (URL_Path r) "/books/" = true
      /\ URL_Path r <> "/books"
      /\ Method r <> "GET" /\ Method r <> "POST"
      /\ Method r <> "PUT" /\ Method r <> "DELETE").
Proof.
  split.
  - intros Hp. unfold ServeMux. rewrite Hp. split; reflexivity.
  - handler_cases; try discriminate. intros _. repeat split; assumption.
Qed.

End RouteContract.

(** ** The contract on concrete requests *)

Lemma create_then_read_witness :
  booksItem flat_Decode (POST "/books/7" body_dune) ∅
    = (mkResponse StatusCreated None (JSONBook dune), <[7 := dune]> ∅)
  /\ (forall g, Method g = "GET" -> path_id g = Some 7 ->
        booksItem flat_Decode g (<[7 := dune]> ∅)
          = (okJSON (JSONBook dune), <[7 := dune]> ∅))
  /\ (forall l, URL_Path l = "/books" ->
        ServeMux flat_Decode l (<[7 := dune]> ∅)
          = (okJSON (JSONBooks (<[7 := dune]> ∅)), <[7 := dune]> ∅))
  /\ (<[7 := dune]> ∅ : Store) !! 7 = Some dune.
Proof.
  apply (create_then_read flat_Decode (POST "/books/7" body_dune) ∅ dune).
  - reflexivity.
  - vm_compute. reflexivity.
  - simpl. lia.
  - reflexivity.
Defined.

Lemma reachable_unique_ids_witness :
  keyed_by_id (ServeMux flat_Decode (POST "/books/7" body_dune) ∅).2
  /\ (forall k1 k2 b1 b2,
        (ServeMux flat_Decode (POST "/books/7" body_dune) ∅).2 !! k1
          = Some b1 ->
        (ServeMux flat_Decode (POST "/books/7" body_dune) ∅).2 !! k2
          = Some b2 ->
        ID b1 = ID b2 -> k1 = k2 /\ b1 = b2)
  /\ NoDup (stored_ids (ServeMux flat_Decode (POST "/books/7" body_dune) ∅).2).
Proof.
  apply (reachable_unique_ids flat_Decode).
  apply reachable_ServeMux. apply reachable_empty.
Defined.

(** The store of the run above holds the one book. *)
Example reachable_shelf :
  (ServeMux flat_Decode (POST "/books/7" body_dune) ∅).2 = shelf_dune.
Proof. vm_compute. reflexivity. Qed.

Lemma update_checks_in_order_witness :
  ((∅ : Store) !! 5 = None ->
     booksItem flat_Decode put_5_malformed ∅
       = (http_Error "Book not found" StatusNotFound, ∅))
  /\ (is_Some ((∅ : Store) !! 5) ->
      flat_Decode (Body put_5_malformed) zeroBook = None ->
      booksItem flat_Decode put_5_malformed ∅
        = (http_Error "Invalid input" StatusBadRequest, ∅))
  /\ (forall b, is_Some ((∅ : Store) !! 5) ->
      flat_Decode (Body put_5_malformed) zeroBook = Some b -> ID b <> 5 ->
      booksItem flat_Decode put_5_malformed ∅
        = (http_Error "Book id in the URL must match the id in the body"
             StatusBadRequest, ∅))
  /\ (forall b, is_Some ((∅ : Store) !! 5) ->
      flat_Decode (Body put_5_malformed) zeroBook = Some b -> ID b = 5 ->
      booksItem flat_Decode put_5_malformed ∅
        = (mkResponse StatusOK None (JSONBook b), <[5 := b]> ∅)).
Proof.
  apply (update_checks_in_order flat_Decode put_5_malformed ∅ 5).
  - reflexivity.
  - vm_compute. reflexivity.
Defined.

(** On a store that holds id 5 the same request is a bad request, and so is
    one whose body carries another id. *)
Example update_stored_bad_body :
  booksItem flat_Decode put_5_malformed shelf_emma
    = (http_Error "Invalid input" StatusBadRequest, shelf_emma)
  /\ booksItem flat_Decode put_5_id_6 shelf_emma
     = (http_Error "Book id in the URL must match the id in the body"
          StatusBadRequest, shelf_emma).
Proof. vm_compute. split; reflexivity. Qed.

(** C3 as stated fails: with nothing stored under 5, a PUT to /books/5 whose
    body is not a JSON value is answered 404, not 400. *)
Lemma update_absent_malformed_is_404 :
  (Method put_5_malformed = "PUT" /\ path_id put_5_malformed = Some 5
   /\ flat_Decode (Body put_5_malformed) zeroBook = None)
  /\ booksItem flat_Decode put_5_malformed ∅
       = (http_Error "Book not found" StatusNotFound, ∅)
  /\ Status (booksItem flat_Decode put_5_malformed ∅).1 <> StatusBadRequest.
Proof. vm_compute. repeat split; discriminate. Qed.

Lemma update_replaces_wholesale_witness :
  booksItem flat_Decode (PUT "/books/1" body_title_only) shelf_first_edition
    = (mkResponse StatusOK None (JSONBook title_only),
       <[1 := title_only]> shelf_first_edition)
  /\ <[1 := title_only]> shelf_first_edition !! 1 = Some title_only
  /\ (forall g, Method g = "GET" -> path_id g = Some 1 ->
        booksItem flat_Decode g (<[1 := title_only]> shelf_first_edition)
          = (okJSON (JSONBook title_only),
             <[1 := title_only]> shelf_first_edition))
  /\ (forall (A : Type) (field : Book -> A),
        omitted flat_Decode field (Body (PUT "/books/1" body_title_only)) ->
        field title_only = field zeroBook).
Proof.
  apply (update_replaces_wholesale flat_Decode
           (PUT "/books/1" body_title_only) shelf_first_edition 1
           first_edition title_only).
  - reflexivity.
  - vm_compute. reflexivity.
  - vm_compute. reflexivity.
  - vm_compute. reflexivity.
  - reflexivity.
Defined.

(** The payload of the wholesale-update scenario names [id] and [title]
    only: decoding it leaves the three other fields as they were. *)
Example body_title_only_omits :
  omitted flat_Decode Author body_title_only
  /\ omitted flat_Decode Description body_title_only
  /\ omitted flat_Decode PublicationYear body_title_only.
Proof.
  unfold omitted. repeat split; intros v v' H; vm_compute in H;
    injection H as <-; reflexivity.
Qed.

(** The scenario itself: create, update with the shorter payload, read. *)
Example update_scenario :
  (booksItem flat_Decode (POST "/books/1" body_first_edition) ∅).2
    = shelf_first_edition
  /\ (booksItem flat_Decode (GET "/books/1")
        (booksItem flat_Decode (PUT "/books/1" body_title_only)
           shelf_first_edition).2).1
     = okJSON (JSONBook (mkBook 1 "B" EmptyString EmptyString 0)).
Proof. vm_compute. split; reflexivity. Qed.

Lemma error_responses_keep_store_witness :
  (ServeMux flat_Decode put_5_id_6 shelf_emma).2 = shelf_emma
  /\ (booksItem flat_Decode put_5_id_6 shelf_emma).2 = shelf_emma
  /\ Status (booksItem flat_Decode put_5_id_6 shelf_emma).1 = StatusBadRequest.
Proof.
  destruct (error_responses_keep_store flat_Decode put_5_id_6 shelf_emma)
    as (H1 & H2 & H3).
  split; [| split].
  - apply H1. left. vm_compute. reflexivity.
  - apply H2. left. vm_compute. reflexivity.
  - apply (H3 5 (mkBook 6 EmptyString EmptyString EmptyString 0)).
    + reflexivity.
    + vm_compute. reflexivity.
    + vm_compute. reflexivity.
    + simpl. lia.
Defined.

(** C5 as stated fails in its instance: with nothing stored under 5 (or 6),
    a PUT to /books/5 whose body carries id 6 is answered 404, not 400.  The
    store is left alone all the same. *)
Lemma update_mismatch_absent_is_404 :
  (Method put_5_id_6 = "PUT" /\ path_id put_5_id_6 = Some 5
   /\ (ID <$> flat_Decode (Body put_5_id_6) zeroBook) = Some 6)
  /\ booksItem flat_Decode put_5_id_6 ∅
       = (http_Error "Book not found" StatusNotFound, ∅)
  /\ Status (booksItem flat_Decode put_5_id_6 ∅).1 <> StatusBadRequest.
Proof. vm_compute. repeat split; discriminate. Qed.

Lemma delete_twice_witness :
  booksItem flat_Decode (DELETE "/books/7") shelf_dune
    = (mkResponse StatusNoContent None NoBody, delete 7 shelf_dune)
  /\ delete 7 shelf_dune !! 7 = None
  /\ (forall r', Method r' = "DELETE" -> path_id r' = Some 7 ->
        booksItem flat_Decode r' (delete 7 shelf_dune)
          = (http_Error "Book not found" StatusNotFound, delete 7 shelf_dune))
  /\ (forall r' j books0, Method r' = "DELETE" -> path_id r' = Some j ->
        books0 !! j = None ->
        booksItem flat_Decode r' books0
          = (http_Error "Book not found" StatusNotFound, books0)).
Proof.
  apply (delete_twice flat_Decode (DELETE "/books/7") shelf_dune 7 dune).
  - reflexivity.
  - vm_compute. reflexivity.
  - vm_compute. reflexivity.
Defined.

(** Deleting id 7 twice in a row: 204, then 404. *)
Example delete_scenario :
  Status (booksItem flat_Decode (DELETE "/books/7") shelf_dune).1
    = StatusNoContent
  /\ Status (booksItem flat_Decode (DELETE "/books/7")
               (booksItem flat_Decode (DELETE "/books/7") shelf_dune).2).1
     = StatusNotFound.
Proof. vm_compute. split; reflexivity. Qed.

Lemma create_rejections_witness :
  booksItem flat_Decode (POST "/books/7" "{") shelf_dune
    = (http_Error "Invalid input" StatusBadRequest, shelf_dune)
  /\ booksItem flat_Decode (POST "/books/0" (body_id "0")) shelf_dune
    = (http_Error "Book id is required" StatusBadRequest, shelf_dune)
  /\ booksItem flat_Decode (POST "/books/7" body_dune) shelf_dune
    = (http_Error "Book already exists" StatusConflict, shelf_dune)
  /\ Status (booksItem flat_Decode (POST "/books/7" body_dune) shelf_dune).1
       <> StatusCreated
  /\ (booksItem flat_Decode (POST "/books/7" body_dune) shelf_dune).2
       = shelf_dune.
Proof.
  destruct (create_rejections flat_Decode (POST "/books/7" "{") shelf_dune
              eq_refl) as (H1 & _).
  destruct (create_rejections flat_Decode (POST "/books/0" (body_id "0"))
              shelf_dune eq_refl) as (_ & H2 & _).
  destruct (create_rejections flat_Decode (POST "/books/7" body_dune)
              shelf_dune eq_refl) as (_ & _ & H3 & H4).
  assert (Hd : flat_Decode body_dune zeroBook = Some dune)
    by (vm_compute; reflexivity).
  assert (Hs : is_Some (shelf_dune !! ID dune)) by (exists dune; reflexivity).
  split; [| split; [| split]].
  - apply H1. vm_compute. reflexivity.
  - apply (H2 zeroBook); vm_compute; reflexivity.
  - apply (H3 dune); [exact Hd | simpl; lia | exact Hs].
  - apply H4. right. exists dune. split; [exact Hd | right; exact Hs].
Defined.

Lemma create_ignores_path_witness :
  path_id (POST "/books/abc" body_dune) = None
  /\ booksItem flat_Decode (POST "/books/7" body_dune) ∅
     = booksItem flat_Decode (POST "/books/abc" body_dune) ∅.
Proof.
  split; [vm_compute; reflexivity |].
  apply (create_ignores_path flat_Decode (POST "/books/7" body_dune)
           (POST "/books/abc" body_dune) ∅); reflexivity.
Defined.

Lemma collection_route_any_method_witness :
  ServeMux flat_Decode (DELETE "/books") shelf_dune
    = (okJSON (JSONBooks shelf_dune), shelf_dune)
  /\ Method (mkRequest "PATCH" "/books/7" EmptyString) <> "GET".
Proof.
  split.
  - apply (collection_route_any_method flat_Decode (DELETE "/books")
             shelf_dune). reflexivity.
  - apply (collection_route_any_method flat_Decode
             (mkRequest "PATCH" "/books/7" EmptyString) ∅).
    vm_compute. reflexivity.
Defined.

(** A path id that is not a number is a bad request, on any store; a method
    outside the four is not allowed; a path outside the two patterns is not
    found. *)
Example unparseable_id :
  (ServeMux flat_Decode (GET "/books/abc") shelf_dune).1
    = http_Error "Invalid book ID" StatusBadRequest
  /\ (ServeMux flat_Decode (mkRequest "PATCH" "/books/7" body_dune)
        shelf_dune).1
     = http_Error "Unsupported method" StatusMethodNotAllowed
  /\ (ServeMux flat_Decode (GET "/shelves") shelf_dune).1
     = http_Error "404 page not found" StatusNotFound.
Proof. vm_compute. repeat split; reflexivity. Qed.

(** ** Handlers under the mutex: one at a time *)

Section RunAlone.

Context {A : Type}.

(** A body that leaves the mutex alone runs to its end and hands the mutex
    back as it found it. *)
Lemma run_lock_free (p : Prog A) m books :
  lock_free p -> exists a books', run p m books = Some (a, m, books').
Proof.
  revert m books.
  induction p as [a | k IH | k IH | id k IH | id b k IH | id k IH | k IH];
    intros m books Hlf; simpl in *; try contradiction; eauto.
Qed.

Lemma run_deferUnlock (p : Prog A) books a books' :
  lock_free p ->
  run p true books = Some (a, true, books') ->
  run (deferUnlock p) true books = Some (a, false, books').
Proof.
  unfold deferUnlock. revert books.
  induction p as [a0 | k IH | k IH | id k IH | id b k IH | id k IH | k IH];
    intros books Hlf Hrun; simpl in *; try contradiction; eauto.
  by simplify_eq.
Qed.

(** A handler run alone from a free mutex: its body runs on the map and the
    mutex is free again. *)
Lemma run_locked (body : Prog A) books :
  lock_free body ->
  exists a books',
    run body true books = Some (a, true, books')
    /\ run (locked body) false books = Some (a, false, books').
Proof.
  intros Hlf. destruct (run_lock_free body true books Hlf) as (a & books' & Hr).
  exists a, books'. split; [exact Hr |].
  simpl. by apply run_deferUnlock.
Qed.

Lemma result_deferUnlock (p : Prog A) :
  lock_free p -> result (deferUnlock p) = None.
Proof. destruct p; simpl; intros; done. Qed.

End RunAlone.

Section StepsAgree.

Variable json_Decode : string -> Book -> option Book.

Lemma call_body_lock_free c : lock_free (call_body json_Decode c).
Proof.
  destruct c as [r | r | r | r | r]; simpl;
    unfold getAllBooks_body, getBookById_body, createBook_body,
      updateBook_body, deleteBook_body;
    repeat (case_match || case_decide || intros []
            || (intros ?; simpl) || exact I); simpl; auto.
Qed.

(** Run alone, the step-by-step handler does what the handler function of
    the first part computes. *)
Lemma call_steps_run c books :
  run (call_steps json_Decode c) false books
    = Some ((call_fn json_Decode c books).1, false,
            (call_fn json_Decode c books).2).
Proof.
  destruct c as [r | r | r | r | r]; simpl;
    unfold getAllBooks_body, getBookById_body, createBook_body,
      updateBook_body, deleteBook_body, getAllBooks, getBookById, createBook,
      updateBook, deleteBook, deferUnlock;
    repeat (case_match || case_decide); simpl;
    repeat (case_match || case_decide); simplify_eq; try reflexivity.
Qed.

End StepsAgree.

(** ** Any interleaving is a serial run *)

Local Open Scope list_scope.

Section Serializability.

Context {A : Type}.
Variable bodies : list (Prog A).
Hypothesis bodies_lock_free : Forall lock_free bodies.
Variable books0 : Store.

Lemma Inv_start : Inv bodies books0 (start bodies books0) [] None.
Proof.
  unfold Inv, start; simpl. split; [by rewrite length_fmap |].
  split; [constructor |]. split.
  - intros i body Hb _ _. by rewrite list_lookup_fmap, Hb.
  - exists [], books0. repeat split. constructor.
Qed.

Lemma serial_app (ps : list (Prog A)) l1 l2 books rs1 books1 :
  serial ps l1 books = Some (rs1, books1) ->
  serial ps (l1 ++ l2) books
    = match serial ps l2 books1 with
      | Some (rs2, books2) => Some (rs1 ++ rs2, books2)
      | None => None
      end.
Proof.
  revert books rs1 books1.
  induction l1 as [| i l1 IH]; intros books rs1 books1 H; simpl in *.
  - simplify_eq. by destruct (serial ps l2 books1) as [[??]|].
  - destruct (ps !! i) as [p|]; [| done].
    destruct (run p false books) as [[[a [|]] b1]|]; try done.
    destruct (serial ps l1 b1) as [[rs b2]|] eqn:Hs; [| done].
    simplify_eq. rewrite (IH _ _ _ Hs).
    by destruct (serial ps l2 books1) as [[??]|].
Qed.

Lemma returned_in_log (c : Config A) log rs i :
  Forall2 (fun j a => threads c !! j = Some (Return a)) log rs ->
  i ∈ log -> exists a, threads c !! i = Some (Return a).
Proof.
  intros HF Hin. apply list_elem_of_lookup in Hin as [n Hn].
  destruct (Forall2_lookup_l _ _ _ _ _ HF Hn) as (a & _ & Ha). eauto.
Qed.

Lemma returned_insert (ts : list (Prog A)) log rs i p :
  i ∉ log ->
  Forall2 (fun j a => ts !! j = Some (Return a)) log rs ->
  Forall2 (fun j a => <[i := p]> ts !! j = Some (Return a)) log rs.
Proof.
  intros Hni HF. induction HF as [| j a log rs Hj HF IH]; constructor.
  - rewrite list_lookup_insert_ne; [exact Hj |].
    intros ->. apply Hni. left.
  - apply IH. intros Hin. apply Hni. by right.
Qed.

(** One action keeps the invariant. *)
Lemma Inv_step i c c' log holder :
  Inv bodies books0 c log holder -> sched_step i c = Some c' ->
  exists log' holder', Inv bodies books0 c' log' holder'.
Proof.
  intros (Hlen & Hnd & Hwait & rs & books1 & Hser & Hret & Hh) Hstep.
  unfold sched_step in Hstep.
  destruct (threads c !! i) as [p|] eqn:Hp; [| done].
  destruct (thread_step p (mtx c) (shared c)) as [[[p' m'] s']|] eqn:Hts;
    [| done].
  simplify_eq.
  assert (Hi : (i < List.length bodies)%nat).
  { rewrite <- Hlen. by eapply lookup_lt_Some. }
  destruct (lookup_lt_is_Some_2 _ _ Hi) as [body Hbody].
  destruct (decide (i ∈ log)) as [Hin | Hnin].
  { destruct (returned_in_log _ _ _ _ Hret Hin) as [a Ha].
    rewrite Ha in Hp. by simplify_eq. }
  destruct (decide (holder = Some i)) as [-> | Hnh].
  - (* the holder moves *)
    destruct Hh as (Hm & body' & q & Hb' & Hlf & Hq & Hrun).
    rewrite Hq in Hp. simplify_eq. rewrite Hm in Hts.
    destruct q as [a | k | k | id k | id b k | id k | k];
      simpl in Hlf, Hts; try contradiction; simplify_eq.
    + (* [Unlock]: the goroutine returns *)
      exists (log ++ [i]), None. unfold Inv; simpl.
      split; [by rewrite length_insert |].
      split; [by rewrite app_nil_r |]. split.
      * intros j bj Hbj Hj _. rewrite list_lookup_insert_ne.
        { apply Hwait; [done | set_solver |]. intros ?; simplify_eq.
          set_solver. }
        intros ->. set_solver.
      * exists (rs ++ [a]), (shared c). split; [| split; [| done]].
        { rewrite (serial_app _ _ _ _ _ _ Hser). simpl.
          rewrite list_lookup_fmap, Hb'. simpl.
          simpl in Hrun. by rewrite <- Hrun. }
        apply Forall2_app; [by apply returned_insert |].
        constructor; [| constructor].
        apply list_lookup_insert_eq. by rewrite Hlen.
    + (* [Load] *)
      exists log, (Some i). unfold Inv; simpl.
      split; [by rewrite length_insert |]. split; [done |]. split.
      * intros j bj Hbj Hj Hne. rewrite list_lookup_insert_ne by congruence.
        by apply Hwait.
      * exists rs, books1. split; [done |].
        split; [by apply returned_insert |].
        split; [done |]. exists body', (k (shared c !! id)).
        split; [done |]. split; [done |]. split; [| done].
        apply list_lookup_insert_eq. by rewrite Hlen.
    + (* [StoreAt] *)
      exists log, (Some i). unfold Inv; simpl.
      split; [by rewrite length_insert |]. split; [done |]. split.
      * intros j bj Hbj Hj Hne. rewrite list_lookup_insert_ne by congruence.
        by apply Hwait.
      * exists rs, books1. split; [done |].
        split; [by apply returned_insert |].
        split; [done |]. exists body', k.
        split; [done |]. split; [done |]. split; [| done].
        apply list_lookup_insert_eq. by rewrite Hlen.
    + (* [Remove] *)
      exists log, (Some i). unfold Inv; simpl.
      split; [by rewrite length_insert |]. split; [done |]. split.
      * intros j bj Hbj Hj Hne. rewrite list_lookup_insert_ne by congruence.
        by apply Hwait.
      * exists rs, books1. split; [done |].
        split; [by apply returned_insert |].
        split; [done |]. exists body', k.
        split; [done |]. split; [done |]. split; [| done].
        apply list_lookup_insert_eq. by rewrite Hlen.
    + (* [ReadAll] *)
      exists log, (Some i). unfold Inv; simpl.
      split; [by rewrite length_insert |]. split; [done |]. split.
      * intros j bj Hbj Hj Hne. rewrite list_lookup_insert_ne by congruence.
        by apply Hwait.
      * exists rs, books1. split; [done |].
        split; [by apply returned_insert |].
        split; [done |]. exists body', (k (shared c)).
        split; [done |]. split; [done |]. split; [| done].
        apply list_lookup_insert_eq. by rewrite Hlen.
  - (* a goroutine takes the mutex *)
    rewrite (Hwait i body Hbody Hnin Hnh) in Hp. simplify_eq.
    simpl in Hts. destruct (mtx c) eqn:Hm; [done |]. simplify_eq.
    destruct holder as [j |]; [destruct Hh as [Hm' _]; congruence |].
    destruct Hh as [_ Hs]. simpl in Hnd. rewrite app_nil_r in Hnd.
    exists log, (Some i). unfold Inv; simpl.
    split; [by rewrite length_insert |]. split.
    { apply NoDup_app. split; [done |]. split; [| apply NoDup_singleton].
      intros x Hx Hxi. apply list_elem_of_singleton in Hxi. by subst. }
    split.
    + intros j bj Hbj Hj Hne. rewrite list_lookup_insert_ne by congruence.
      by apply Hwait.
    + exists rs, books1. split; [done |].
      split; [by apply returned_insert |].
      split; [done |]. exists body, body. split; [done |].
      split; [by eapply Forall_lookup_1 |]. split.
      * apply list_lookup_insert_eq. by rewrite Hlen.
      * by rewrite Hs.
Qed.

Lemma Inv_exec sched c c' log holder :
  Inv bodies books0 c log holder -> exec sched c = Some c' ->
  exists log' holder', Inv bodies books0 c' log' holder'.
Proof.
  revert c log holder.
  induction sched as [| i sched IH]; intros c log holder HI Hex; simpl in Hex.
  - simplify_eq. eauto.
  - destruct (sched_step i c) as [c1|] eqn:Hs; [| done].
    destruct (Inv_step _ _ _ _ _ HI Hs) as (log1 & holder1 & HI1). eauto.
Qed.

(** When every goroutine has returned, the log is a serial order of all of
    them. *)
Lemma Inv_final c log holder (res : list A) :
  Inv bodies books0 c log holder -> results c = Some res ->
  exists rs,
    log ≡ₚ seq 0 (List.length bodies)
    /\ serial (locked <$> bodies) log books0 = Some (rs, shared c)
    /\ Forall2 (fun i a => res !! i = Some a) log rs
    /\ mtx c = false
    /\ List.length res = List.length bodies.
Proof.
  intros (Hlen & Hnd & Hwait & rs & books1 & Hser & Hret & Hh) Hres.
  pose proof (length_mapM _ _ _ Hres) as Hlr.
  apply mapM_Some in Hres.
  destruct holder as [i |].
  { destruct Hh as (_ & body & p & _ & Hlf & Hp & _).
    destruct (Forall2_lookup_l _ _ _ _ _ Hres Hp) as (a & _ & Ha).
    by rewrite result_deferUnlock in Ha. }
  destruct Hh as [Hm Hs]. simpl in Hnd. rewrite app_nil_r in Hnd.
  exists rs. split; [| split; [| split; [| split]]]; [| | | exact Hm | congruence].
  - apply NoDup_Permutation; [done | apply NoDup_seq |].
    intros x. rewrite elem_of_seq. split.
    + intros Hx. destruct (returned_in_log _ _ _ _ Hret Hx) as [a Ha].
      apply lookup_lt_Some in Ha. lia.
    + intros [_ Hx]. destruct (decide (x ∈ log)) as [| Hnin]; [done |].
      destruct (lookup_lt_is_Some_2 bodies x) as [body Hb]; [lia |].
      pose proof (Hwait x body Hb Hnin ltac:(done)) as Hw.
      destruct (Forall2_lookup_l _ _ _ _ _ Hres Hw) as (a & _ & Ha).
      discriminate Ha.
  - by rewrite Hs.
  - eapply Forall2_impl; [exact Hret |]. intros j a Hj.
    destruct (Forall2_lookup_l _ _ _ _ _ Hres Hj) as (a' & Ha' & Hr).
    simpl in Hr. by simplify_eq.
Qed.

(** No deadlock: as long as some goroutine has not returned, some goroutine
    can move. *)
Lemma Inv_progress c log holder :
  Inv bodies books0 c log holder -> results c = None ->
  exists i c', sched_step i c = Some c'.
Proof.
  intros (Hlen & Hnd & Hwait & rs & books1 & Hser & Hret & Hh) Hres.
  destruct holder as [j |].
  - destruct Hh as (Hm & body & p & _ & Hlf & Hp & _).
    exists j. unfold sched_step. rewrite Hp, Hm.
    destruct p; simpl in *; try contradiction; eauto.
  - destruct Hh as [Hm _].
    apply mapM_None, Exists_exists in Hres as (p & Hp & Hr).
    apply list_elem_of_lookup in Hp as [i Hi].
    destruct (decide (i ∈ log)) as [Hin | Hnin].
    { destruct (returned_in_log _ _ _ _ Hret Hin) as [a Ha].
      rewrite Ha in Hi. by simplify_eq. }
    destruct (lookup_lt_is_Some_2 bodies i) as [body Hb].
    { rewrite <- Hlen. by eapply lookup_lt_Some. }
    exists i. unfold sched_step.
    rewrite (Hwait i body Hb Hnin ltac:(done)), Hm. simpl. eauto.
Qed.

End Serializability.

(** *** Every execution ends *)

Lemma threads_move_cons {A : Type} (p : Prog A) ts :
  Acc threads_move ts -> Acc threads_move (p :: ts).
Proof.
  intros Hts. revert p. induction Hts as [ts _ IHts].
  induction p as [a | k IH | k IH | id k IH | id b k IH | id k IH | k IH];
    constructor; intros ts' (i & q & q' & m & s & m' & s' & Hq & Hst & ->);
    (destruct i as [| i];
     [ simpl in Hq; simplify_eq; simpl in Hst;
       repeat case_match; simplify_eq; simpl; auto
     | simpl in Hq; simpl; apply IHts;
       exists i, q, q', m, s, m', s'; auto ]).
Qed.

Lemma threads_move_wf {A : Type} (ts : list (Prog A)) : Acc threads_move ts.
Proof.
  induction ts as [| p ts IH].
  - constructor. intros ts' (i & p & p' & m & s & m' & s' & Hp & _).
    by rewrite lookup_nil in Hp.
  - by apply threads_move_cons.
Qed.

Lemma moves_wf {A : Type} (c : Config A) : Acc moves c.
Proof.
  pose proof (threads_move_wf (threads c)) as Hacc.
  remember (threads c) as ts eqn:Hts. revert c Hts.
  induction Hacc as [ts _ IH]. intros c ->.
  constructor. intros c' [i Hs]. apply (IH (threads c')); [| done].
  unfold sched_step in Hs.
  destruct (threads c !! i) as [p|] eqn:Hp; [| done].
  destruct (thread_step p (mtx c) (shared c)) as [[[p' m'] s']|] eqn:Hst;
    [| done].
  simplify_eq. simpl. exists i, p, p', (mtx c), (shared c), m', s'. auto.
Qed.

(** *** The theorems on executions *)

(** Whatever the schedule, once all goroutines have returned the map and the
    values returned are those of the goroutines run one after the other, in
    the order they took the mutex. *)
Lemma interleaving_is_serial {A : Type} (bodies : list (Prog A)) books0
    sched c' (res : list A) :
  Forall lock_free bodies ->
  exec sched (start bodies books0) = Some c' ->
  results c' = Some res ->
  exists order rs,
    order ≡ₚ seq 0 (List.length bodies)
    /\ serial (locked <$> bodies) order books0 = Some (rs, shared c')
    /\ Forall2 (fun i a => res !! i = Some a) order rs
    /\ mtx c' = false
    /\ List.length res = List.length bodies.
Proof.
  intros Hlf Hex Hres.
  destruct (Inv_exec bodies Hlf books0 sched _ _ _ _ (Inv_start bodies books0)
              Hex) as (log & holder & HI).
  destruct (Inv_final bodies books0 _ _ _ _ HI Hres) as (rs & H).
  exists log, rs. exact H.
Qed.

(** From any configuration an execution reaches, the goroutines that have
    not returned can still all be run to their end. *)
Lemma execution_completes {A : Type} (bodies : list (Prog A)) books0
    (c : Config A) log holder :
  Forall lock_free bodies ->
  Inv bodies books0 c log holder ->
  exists sched c' res, exec sched c = Some c' /\ results c' = Some res.
Proof.
  intros Hlf. revert log holder.
  induction (moves_wf c) as [c _ IH]. intros log holder HI.
  destruct (results c) as [res |] eqn:Hres.
  - exists [], c, res. done.
  - destruct (Inv_progress bodies books0 _ _ _ HI Hres) as (i & c1 & Hs).
    destruct (Inv_step bodies Hlf books0 _ _ _ _ _ HI Hs)
      as (log1 & holder1 & HI1).
    destruct (IH c1 (ex_intro _ i Hs) _ _ HI1) as (sched & c' & res & He & Hr).
    exists (i :: sched), c', res. simpl. rewrite Hs. done.
Qed.

(** The values picked from [res] along a permutation of its positions are a
    permutation of [res]. *)
Lemma omap_lookup_seq {A : Type} (l : list A) :
  omap (fun i => l !! i) (seq 0 (List.length l)) = l.
Proof.
  induction l as [| x l IH] using rev_ind; [done |].
  rewrite length_app. simpl. rewrite Nat.add_1_r, seq_S, omap_app. simpl.
  rewrite list_lookup_middle by done. simpl. f_equal.
  rewrite <- IH at 2. apply list_omap_ext.
  apply Forall2_same_length_lookup. split; [done |].
  intros i j k Hj Hk. simplify_eq. apply lookup_seq in Hj as [-> Hlt].
  simpl. by rewrite lookup_app_l.
Qed.

Lemma omap_picked {A : Type} (res rs : list A) (order : list nat) :
  Forall2 (fun i a => res !! i = Some a) order rs ->
  omap (fun i => res !! i) order = rs.
Proof.
  induction 1 as [| i a order rs Hi HF IH]; [done |].
  simpl. rewrite Hi. simpl. by f_equal.
Qed.

Lemma picked_permutation {A : Type} (res rs : list A) order :
  order ≡ₚ seq 0 (List.length res) ->
  Forall2 (fun i a => res !! i = Some a) order rs ->
  rs ≡ₚ res.
Proof.
  intros Hperm HF.
  rewrite <- (omap_picked _ _ _ HF), Hperm. by rewrite omap_lookup_seq.
Qed.

Section CallsInOrder.

Variable json_Decode : string -> Book -> option Book.

Lemma start_calls (calls : list Call) books :
  start (call_body json_Decode <$> calls) books
    = mkConfig (call_steps json_Decode <$> calls) false books.
Proof. unfold start. by rewrite <- list_fmap_compose. Qed.

(** A serial run of handler goroutines is the handler functions applied one
    after the other. *)
Lemma serial_calls (calls : list Call) order books rs books' :
  serial (call_steps json_Decode <$> calls) order books = Some (rs, books') ->
  exists ordered,
    Forall2 (fun i c => calls !! i = Some c) order ordered
    /\ one_at_a_time json_Decode ordered books = (rs, books').
Proof.
  revert books rs books'.
  induction order as [| i order IH]; intros books rs books' H; simpl in H.
  - simplify_eq. exists []. split; [constructor | done].
  - rewrite list_lookup_fmap in H.
    destruct (calls !! i) as [c|] eqn:Hc; [| done].
    cbn -[call_steps run] in H. rewrite call_steps_run in H.
    destruct (serial _ order _) as [[rs1 books2]|] eqn:Hs; [| done].
    simplify_eq. destruct (IH _ _ _ Hs) as (ordered & HF & Ho).
    exists (c :: ordered). split; [by constructor |].
    simpl. destruct (call_fn json_Decode c books) as [resp books1].
    simpl in Ho. by rewrite Ho.
Qed.

Variable id : Z.
Hypothesis id_nonzero : id <> 0.

(** Once the id is stored, every further create of it is turned down. *)
Lemma creates_after_first calls books :
  Forall (creating json_Decode id) calls -> is_Some (books !! id) ->
  (one_at_a_time json_Decode calls books).2 = books
  /\ Forall (fun a => Status a = StatusConflict)
       (one_at_a_time json_Decode calls books).1.
Proof.
  intros HF [old Hold]. induction HF as [| c calls (r & -> & b & Hd & Hb) HF IH].
  - simpl. split; [done | constructor].
  - simpl.
    assert (Hnz : ID b <> 0) by (rewrite Hb; exact id_nonzero).
    assert (Hold' : books !! ID b = Some old) by (by rewrite Hb).
    rewrite (createBook_conflict json_Decode r books b old Hd Hnz Hold').
    destruct (one_at_a_time json_Decode calls books) as [rs books2].
    simpl in *. destruct IH as [-> IH]. split; [done |].
    by constructor.
Qed.

(** The first create of an id that is not stored goes through. *)
Lemma creates_first c calls books :
  Forall (creating json_Decode id) (c :: calls) -> books !! id = None ->
  exists resp rs,
    (one_at_a_time json_Decode (c :: calls) books).1 = resp :: rs
    /\ Status resp = StatusCreated
    /\ Forall (fun a => Status a = StatusConflict) rs
    /\ is_Some ((one_at_a_time json_Decode (c :: calls) books).2 !! id).
Proof.
  intros HF Hnew. apply Forall_cons in HF as [(r & -> & b & Hd & Hb) HF].
  simpl.
  assert (Hnz : ID b <> 0) by (rewrite Hb; exact id_nonzero).
  assert (Hnew' : books !! ID b = None) by (by rewrite Hb).
  rewrite (createBook_created json_Decode r books b Hd Hnz Hnew').
  destruct (creates_after_first calls (<[ID b := b]> books) HF) as [Hs Hc].
  { rewrite <- Hb, lookup_insert_eq. eauto. }
  destruct (one_at_a_time json_Decode calls (<[ID b := b]> books))
    as [rs books2].
  simpl in *. subst books2. exists (mkResponse StatusCreated None (JSONBook b)), rs.
  repeat split; [done | by rewrite <- Hb, lookup_insert_eq].
Qed.

End CallsInOrder.

Lemma count_status_all code (rs : list Response) :
  Forall (fun a => Status a = code) rs -> count_status code rs = List.length rs.
Proof.
  unfold count_status. induction 1 as [| a rs Ha _ IH]; [done |].
  rewrite filter_cons_True by done. simpl. by rewrite IH.
Qed.

Lemma count_status_none code code' (rs : list Response) :
  code <> code' ->
  Forall (fun a => Status a = code') rs -> count_status code rs = 0%nat.
Proof.
  unfold count_status. intros Hne. induction 1 as [| a rs Ha _ IH]; [done |].
  rewrite filter_cons_False by congruence. exact IH.
Qed.

Lemma count_status_Permutation code (rs rs' : list Response) :
  rs ≡ₚ rs' -> count_status code rs = count_status code rs'.
Proof. unfold count_status. intros H. by rewrite H. Qed.

Section Serialized.

Variable json_Decode : string -> Book -> option Book.

Lemma calls_serialized (calls : list Call) books0 sched c' res :
  exec sched (start (call_body json_Decode <$> calls) books0) = Some c' ->
  results c' = Some res ->
  exists order ordered,
    order ≡ₚ seq 0 (List.length calls)
    /\ Forall2 (fun i c => calls !! i = Some c) order ordered
    /\ (one_at_a_time json_Decode ordered books0).2 = shared c'
    /\ Forall2 (fun i a => res !! i = Some a) order
         (one_at_a_time json_Decode ordered books0).1
    /\ List.length res = List.length calls.
Proof.
  intros Hex Hres.
  destruct (interleaving_is_serial (call_body json_Decode <$> calls) books0
              sched c' res) as (order & rs & Hperm & Hser & HF & _ & Hlen);
    [| exact Hex | exact Hres |].
  { apply Forall_fmap, Forall_forall. intros c _. apply call_body_lock_free. }
  rewrite length_fmap in Hperm, Hlen.
  rewrite <- list_fmap_compose in Hser.
  destruct (serial_calls json_Decode calls order books0 rs (shared c') Hser)
    as (ordered & Ho & Hone).
  exists order, ordered. rewrite Hone. done.
Qed.

Lemma calls_complete (calls : list Call) books0 sched c :
  exec sched (start (call_body json_Decode <$> calls) books0) = Some c ->
  exists sched' c' res, exec sched' c = Some c' /\ results c' = Some res.
Proof.
  intros Hex.
  assert (Hlf : Forall lock_free (call_body json_Decode <$> calls)).
  { apply Forall_fmap, Forall_forall. intros x _. apply call_body_lock_free. }
  destruct (Inv_exec _ Hlf books0 sched _ _ _ _ (Inv_start _ books0) Hex)
    as (log & holder & HI).
  by eapply execution_completes.
Qed.

Lemma creates_serialized (reqs : list Request) id books0 sched c' res :
  reqs <> [] -> id <> 0 -> books0 !! id = None ->
  Forall (creates_id json_Decode id) reqs ->
  exec sched (start (createBook_body json_Decode <$> reqs) books0) = Some c' ->
  results c' = Some res ->
  List.length res = List.length reqs
  /\ count_status StatusCreated res = 1%nat
  /\ count_status StatusConflict res = (List.length reqs - 1)%nat
  /\ is_Some (shared c' !! id).
Proof.
  intros Hne Hid Hnew Hreqs Hex Hres.
  assert (Hcalls : createBook_body json_Decode <$> reqs
                   = call_body json_Decode <$> (CallCreateBook <$> reqs))
    by (by rewrite <- list_fmap_compose).
  rewrite Hcalls in Hex.
  destruct (calls_serialized _ _ _ _ _ Hex Hres)
    as (order & ordered & Hperm & Ho & Hs & HF & Hlen).
  rewrite length_fmap in Hperm, Hlen.
  assert (Hcr : Forall (creating json_Decode id) ordered).
  { apply Forall_forall. intros c Hc.
    apply list_elem_of_lookup in Hc as [n Hn].
    destruct (Forall2_lookup_r _ _ _ _ _ Ho Hn) as (i & _ & Hi).
    rewrite list_lookup_fmap in Hi.
    destruct (reqs !! i) as [r|] eqn:Hr; simplify_eq/=.
    exists r. split; [done |]. by eapply Forall_lookup_1. }
  assert (Hlo : List.length ordered = List.length reqs).
  { rewrite <- (Forall2_length _ _ _ Ho), Hperm. apply length_seq. }
  destruct ordered as [| c ordered].
  { destruct reqs; [done | discriminate]. }
  destruct (creates_first json_Decode id Hid c ordered books0 Hcr Hnew)
    as (resp & rs & Hrs & Hresp & Hconf & Hstored).
  rewrite Hrs in HF. rewrite Hs in Hstored.
  assert (Hp : (resp :: rs) ≡ₚ res).
  { eapply picked_permutation; [| exact HF]. by rewrite Hlen. }
  assert (Hlrs : List.length rs = (List.length reqs - 1)%nat).
  { apply Permutation_length in Hp. simpl in Hp. lia. }
  split; [done |]. split; [| split; [| done]].
  - rewrite <- (count_status_Permutation _ _ _ Hp). unfold count_status.
    rewrite filter_cons_True by done. simpl.
    fold (count_status StatusCreated rs).
    by rewrite (count_status_none StatusCreated StatusConflict).
  - rewrite <- (count_status_Permutation _ _ _ Hp). unfold count_status.
    rewrite filter_cons_False by (rewrite Hresp; done).
    fold (count_status StatusConflict rs).
    by rewrite count_status_all.
Qed.

(** C9: under the mutex every execution of handler goroutines, whatever the
    schedule, ends as if the handlers had run one at a time in some total
    order: the map is the one that order leaves and every goroutine gets the
    response it gets in that order.  Of any number of goroutines creating
    the same id, absent at the start, exactly one gets 201 and all the others
    409.  No execution blocks or runs for ever: what is left can always be
    run to its end, and every schedule is finite. *)
Theorem mutex_serializes :
  (forall (calls : list Call) books0 sched c' res,
      exec sched (start (call_body json_Decode <$> calls) books0) = Some c' ->
      results c' = Some res ->
      exists order ordered,
        order ≡ₚ seq 0 (List.length calls)
        /\ Forall2 (fun i c => calls !! i = Some c) order ordered
        /\ (one_at_a_time json_Decode ordered books0).2 = shared c'
        /\ Forall2 (fun i a => res !! i = Some a) order
             (one_at_a_time json_Decode ordered books0).1)
  /\ (forall (reqs : list Request) id books0 sched c' res,
      reqs <> [] -> id <> 0 -> books0 !! id = None ->
      Forall (creates_id json_Decode id) reqs ->
      exec sched (start (createBook_body json_Decode <$> reqs) books0)
        = Some c' ->
      results c' = Some res ->
      List.length res = List.length reqs
      /\ count_status StatusCreated res = 1%nat
      /\ count_status StatusConflict res = (List.length reqs - 1)%nat)
  /\ (forall (calls : list Call) books0 sched c,
      exec sched (start (call_body json_Decode <$> calls) books0) = Some c ->
      exists sched' c' res, exec sched' c = Some c' /\ results c' = Some res)
  /\ (forall c : Config Response, Acc moves c).
Proof.
  split; [| split; [| split]].
  - intros calls books0 sched c' res Hex Hres.
    destruct (calls_serialized calls books0 sched c' res Hex Hres)
      as (order & ordered & H1 & H2 & H3 & H4 & _).
    exists order, ordered. done.
  - intros reqs id books0 sched c' res Hne Hid Hnew Hreqs Hex Hres.
    destruct (creates_serialized reqs id books0 sched c' res Hne Hid Hnew
                Hreqs Hex Hres) as (H1 & H2 & H3 & _).
    done.
  - apply calls_complete.
  - apply moves_wf.
Qed.

End Serialized.

Local Open Scope string_scope.

(** Three goroutines create id 9 at once.  The second takes the mutex first
    and stores its book, then the first and the third find the id taken. *)
Lemma mutex_serializes_witness :
  exists c' res,
    exec [1; 1; 1; 1; 0; 0; 0; 2; 2; 2]%nat
      (start (createBook_body flat_Decode <$> three_creates) ∅) = Some c'
    /\ results c' = Some res
    /\ (Status <$> res) = [StatusConflict; StatusCreated; StatusConflict]
    /\ List.length res = List.length three_creates
    /\ count_status StatusCreated res = 1%nat
    /\ count_status StatusConflict res = (List.length three_creates - 1)%nat.
Proof.
  eexists _, _.
  split; [vm_compute; reflexivity |].
  split; [vm_compute; reflexivity |].
  split; [vm_compute; reflexivity |].
  destruct (mutex_serializes flat_Decode) as (_ & Hcreates & _).
  eapply (Hcreates three_creates 9 ∅ [1; 1; 1; 1; 0; 0; 0; 2; 2; 2]%nat).
  - discriminate.
  - lia.
  - reflexivity.
  - repeat constructor; eexists; (split; [vm_compute; reflexivity | reflexivity]).
  - vm_compute. reflexivity.
  - vm_compute. reflexivity.
Defined.

(** A goroutine that waits for the mutex cannot move: while the second
    goroutine is inside its handler, scheduling the first one is not a step
    of any execution. *)
Example lock_blocks :
  exec [1; 0]%nat (start (createBook_body flat_Decode <$> three_creates) ∅)
    = None.
Proof. vm_compute. reflexivity. Qed.

(** ** More of the contract: edges, frames and compositions *)

Section MoreContract.

Variable json_Decode : string -> Book -> option Book.

Ltac all_handlers :=
  unfold ServeMux, booksItem, getAllBooks, getBookById, createBook,
    updateBook, deleteBook, http_Error, addressed_id, path_id in *;
  repeat (case_decide || case_match); simplify_eq;
  cbn [fst snd Status fmap option_fmap option_map] in *.

(** X1: on the item route a GET, a PUT or a DELETE whose path id does not
    parse is answered 400 "Invalid book ID", whatever the body and the map
    hold, and the map is left alone. *)
Theorem unparseable_id_is_bad_request r books :
  path_id r = None ->
  Method r = "GET" \/ Method r = "PUT" \/ Method r = "DELETE" ->
  booksItem json_Decode r books
    = (http_Error "Invalid book ID" StatusBadRequest, books).
Proof.
  unfold path_id. intros Hp [Hm | [Hm | Hm]];
    unfold booksItem, getBookById, updateBook, deleteBook;
    rewrite Hm, Hp; reflexivity.
Qed.


(** X3: every stored book whose key fits [int] can be fetched: some path
    under /books/ makes a GET return 200 with exactly that record. *)
Theorem stored_book_has_a_path books i b :
  books !! i = Some b ->
  minInt <= i <= maxInt ->
  exists path,
    strings_HasPrefix path "/books/" = true
    /\ path <> "/books"
    /\ forall body,
         ServeMux json_Decode (mkRequest "GET" path body) books
           = (okJSON (JSONBook b), books).
Proof.
  intros Hb Hi. destruct (every_id_has_a_path i Hi) as (path & Hpre & Hid).
  exists path. split; [exact Hpre |].
  assert (Hne : path <> "/books").
  { intros ->. discriminate Hpre. }
  split; [exact Hne |]. intros body.
  unfold ServeMux. cbn [URL_Path]. rewrite Hpre.
  destruct (decide (path = "/books")); [contradiction |].
  rewrite booksItem_GET by reflexivity.
  apply getBookById_found with (i := i); [apply Hid | exact Hb].
Qed.

(** X4: a request writes at most the entry of the id it addresses (the body
    id for a POST, the path id for a PUT or a DELETE): every other entry of
    the map is after the request what it was before. *)
Theorem other_ids_untouched r books j :
  addressed_id json_Decode r <> Some j ->
  (ServeMux json_Decode r books).2 !! j = books !! j
  /\ (booksItem json_Decode r books).2 !! j = books !! j.
Proof.
  intros Ha.
  assert (Hitem : (booksItem json_Decode r books).2 !! j = books !! j).
  { revert Ha. all_handlers; intros Ha; try reflexivity.
    - apply lookup_insert_ne. congruence.
    - apply lookup_insert_ne. congruence.
    - apply lookup_delete_ne. congruence. }
  split; [| exact Hitem].
  unfold ServeMux. repeat case_match; try reflexivity. exact Hitem.
Qed.

(** X5: the number of stored books moves with the status: a 201 adds one
    book, a 204 takes one away, and every other answer leaves the count as
    it was. *)
Theorem size_follows_status r books :
  (Status (ServeMux json_Decode r books).1 = StatusCreated ->
     size (ServeMux json_Decode r books).2 = S (size books))
  /\ (Status (ServeMux json_Decode r books).1 = StatusNoContent ->
     S (size (ServeMux json_Decode r books).2) = size books)
  /\ (Status (ServeMux json_Decode r books).1 <> StatusCreated ->
      Status (ServeMux json_Decode r books).1 <> StatusNoContent ->
      size (ServeMux json_Decode r books).2 = size books).
Proof.
  all_handlers; repeat split; intros; try discriminate; try reflexivity;
    try contradiction.
  - by apply map_size_insert_None.
  - by apply map_size_insert_Some.
  - match goal with
    | Hb : books !! ?z = Some ?b |- _ =>
        rewrite <- (insert_delete_id books z b Hb) at 2;
        symmetry; apply map_size_insert_None, lookup_delete_eq
    end.
Qed.

(** X6: the map changes only where a write succeeds: a request that leaves
    a different map behind is a POST answered 201, a PUT answered 200 or a
    DELETE answered 204.  In particular no GET, on either route, ever
    changes the map. *)
Theorem store_changes_only_on_success r books :
  (ServeMux json_Decode r books).2 <> books ->
  (Method r = "POST" /\ Status (ServeMux json_Decode r books).1 = StatusCreated)
  \/ (Method r = "PUT" /\ Status (ServeMux json_Decode r books).1 = StatusOK)
  \/ (Method r = "DELETE"
      /\ Status (ServeMux json_Decode r books).1 = StatusNoContent).
Proof.
  all_handlers; intros Hchanged; try contradiction; auto.
Qed.

(** X7: creating a book and deleting it at once gives the map back as it
    was before the two requests: 201, then 204, and nothing of the book is
    left. *)
Theorem create_then_delete_restores r d books b :
  Method r = "POST" ->
  json_Decode (Body r) zeroBook = Some b ->
  ID b <> 0 ->
  books !! ID b = None ->
  Method d = "DELETE" ->
  path_id d = Some (ID b) ->
  Status (booksItem json_Decode r books).1 = StatusCreated
  /\ booksItem json_Decode d (booksItem json_Decode r books).2
     = (mkResponse StatusNoContent None NoBody, books).
Proof.
  intros Hr Hd Hnz Hnew Hdel Hp.
  rewrite booksItem_POST by assumption.
  rewrite (createBook_created json_Decode r books b Hd Hnz Hnew). simpl.
  split; [reflexivity |]. rewrite booksItem_DELETE by assumption.
  rewrite (deleteBook_present d _ (ID b) b Hp (lookup_insert_eq _ _ _)).
  by rewrite delete_insert_id.
Qed.

(** X8: of two successive PUTs on the same stored id only the second one
    shows: the map is the one the second PUT alone leaves, whatever the
    first one wrote; so repeating a PUT changes nothing more and is
    answered as the first time. *)
Theorem last_put_wins r1 r2 books i old b1 b2 :
  Method r1 = "PUT" -> Method r2 = "PUT" ->
  path_id r1 = Some i -> path_id r2 = Some i ->
  books !! i = Some old ->
  json_Decode (Body r1) zeroBook = Some b1 -> ID b1 = i ->
  json_Decode (Body r2) zeroBook = Some b2 -> ID b2 = i ->
  booksItem json_Decode r2 (booksItem json_Decode r1 books).2
    = booksItem json_Decode r2 books
  /\ booksItem json_Decode r1 (booksItem json_Decode r1 books).2
     = booksItem json_Decode r1 books.
Proof.
  intros Hm1 Hm2 Hp1 Hp2 Hold Hd1 Hi1 Hd2 Hi2.
  rewrite !booksItem_PUT by assumption.
  rewrite (updateBook_replaced json_Decode r1 books i old b1 Hp1 Hold Hd1 Hi1).
  rewrite (updateBook_replaced json_Decode r2 books i old b2 Hp2 Hold Hd2 Hi2).
  simpl. split.
  - rewrite (updateBook_replaced json_Decode r2 _ i b1 b2 Hp2
               (lookup_insert_eq _ _ _) Hd2 Hi2).
    by rewrite insert_insert_eq.
  - rewrite (updateBook_replaced json_Decode r1 _ i b1 b1 Hp1
               (lookup_insert_eq _ _ _) Hd1 Hi1).
    by rewrite insert_insert_eq.
Qed.

(** The zero id never gets in: [createBook] turns it down and [updateBook]
    writes only ids that are there. *)
Lemma ServeMux_keeps_zero_out r books :
  books !! 0 = None -> (ServeMux json_Decode r books).2 !! 0 = None.
Proof.
  intros Hz. all_handlers; try assumption.
  all: try (rewrite lookup_insert_ne by done; assumption).
  all: try (rewrite lookup_delete; case_decide; [done | assumption]).
  all: rewrite lookup_insert; case_decide; [congruence | assumption].
Qed.

Lemma handlers_keep_zero_out r books :
  books !! 0 = None ->
  (createBook json_Decode r books).2 !! 0 = None
  /\ (updateBook json_Decode r books).2 !! 0 = None
  /\ (deleteBook r books).2 !! 0 = None.
Proof.
  intros Hz. repeat split; all_handlers; try assumption.
  all: try (rewrite lookup_insert_ne by done; assumption).
  all: try (rewrite lookup_delete; case_decide; [done | assumption]).
  all: rewrite lookup_insert; case_decide; [congruence | assumption].
Qed.

(** X9: no sequence of requests ever stores a book under id 0: in every
    reachable map the key 0 is free, so a GET, PUT or DELETE of /books/0 is
    always answered 404. *)
Theorem zero_id_never_stored books :
  reachable json_Decode books ->
  books !! 0 = None
  /\ (forall r, path_id r = Some 0 ->
        Method r = "GET" \/ Method r = "PUT" \/ Method r = "DELETE" ->
        booksItem json_Decode r books
          = (http_Error "Book not found" StatusNotFound, books)).
Proof.
  intros Hr.
  assert (Hz : books !! 0 = None).
  { induction Hr as [| r books _ IH | r books _ IH | r books _ IH
                     | r books _ IH].
    - apply lookup_empty.
    - by apply ServeMux_keeps_zero_out.
    - by apply handlers_keep_zero_out.
    - by apply handlers_keep_zero_out.
    - by apply (handlers_keep_zero_out r). }
  split; [exact Hz |]. intros r Hp [Hm | [Hm | Hm]].
  - rewrite booksItem_GET by assumption. by apply getBookById_absent with (i := 0).
  - rewrite booksItem_PUT by assumption. by apply updateBook_absent with (i := 0).
  - rewrite booksItem_DELETE by assumption.
    by apply deleteBook_absent with (i := 0).
Qed.

(** X10: an id is free again once deleted: a DELETE of a stored id followed
    by a POST of a book with that id is answered 204, then 201, and leaves
    the map a PUT of that book would have left. *)
Theorem delete_then_create_again d r books i old b :
  Method d = "DELETE" -> path_id d = Some i ->
  books !! i = Some old ->
  Method r = "POST" ->
  json_Decode (Body r) zeroBook = Some b -> ID b = i -> i <> 0 ->
  Status (booksItem json_Decode d books).1 = StatusNoContent
  /\ booksItem json_Decode r (booksItem json_Decode d books).2
     = (mkResponse StatusCreated None (JSONBook b), <[i := b]> books).
Proof.
  intros Hmd Hpd Hold Hmr Hd Hid Hnz.
  rewrite booksItem_DELETE by assumption.
  rewrite (deleteBook_present d books i old Hpd Hold). simpl.
  split; [reflexivity |]. rewrite booksItem_POST by assumption.
  rewrite (createBook_created json_Decode r (delete i books) b Hd).
  - by rewrite Hid, insert_delete_eq.
  - by rewrite Hid.
  - rewrite Hid. apply lookup_delete_eq.
Qed.

(** X11: on the empty map nothing but a create gets through: a GET, PUT or
    DELETE whose path id parses is answered 404, whatever the id, and every
    request that is not a POST leaves the map empty. *)
Theorem empty_store_only_create r :
  (forall i, path_id r = Some i ->
     Method r = "GET" \/ Method r = "PUT" \/ Method r = "DELETE" ->
     booksItem json_Decode r ∅
       = (http_Error "Book not found" StatusNotFound, ∅))
  /\ (Method r <> "POST" -> (ServeMux json_Decode r ∅).2 = ∅).
Proof.
  split.
  - intros i Hp [Hm | [Hm | Hm]].
    + rewrite booksItem_GET by assumption.
      by apply getBookById_absent with (i := i).
    + rewrite booksItem_PUT by assumption.
      by apply updateBook_absent with (i := i).
    + rewrite booksItem_DELETE by assumption.
      by apply deleteBook_absent with (i := i).
  - intros Hm. all_handlers; try reflexivity; try contradiction.
Qed.

End MoreContract.

(** *** Path ids with a sign or with leading zeros *)

Lemma parse_digits_first c s n :
  parse_digits (String c s) 0 = Some n -> is_digit c = true.
Proof. simpl. destruct (is_digit c); [done | discriminate]. Qed.

Lemma Atoi_digits s :
  s <> EmptyString -> all_digits s ->
  strconv_Atoi s
    = match parse_digits s 0 with
      | None => None
      | Some v => if ((minInt <=? v) && (v <=? maxInt))%Z then Some v else None
      end.
Proof.
  intros Hne [n Hn]. destruct s as [| c s]; [done |].
  apply is_digit_not_sign. by eapply parse_digits_first.
Qed.

(** X12: the id of a path is read as a number, not as a string: a plus sign
    or a leading zero before the digits (and so any number of zeros) gives
    the same id, so /books/7, /books/+7 and /books/007 all address book
    7. *)
Theorem padded_path_same_id s method body :
  s <> EmptyString ->
  all_digits s ->
  path_id (mkRequest method ("/books/" ++ String "+" s) body)
    = path_id (mkRequest method ("/books/" ++ s) body)
  /\ path_id (mkRequest method ("/books/" ++ String "0" s) body)
     = path_id (mkRequest method ("/books/" ++ s) body).
Proof.
  intros Hne Hd. unfold path_id. cbn [URL_Path].
  change (strings_TrimPrefix ("/books/" ++ String "+" s) "/books/")
    with (String "+" s).
  change (strings_TrimPrefix ("/books/" ++ String "0" s) "/books/")
    with (String "0" s).
  change (strings_TrimPrefix ("/books/" ++ s) "/books/") with s.
  rewrite (Atoi_digits s Hne Hd). split.
  - destruct s as [| c s]; [done |]. reflexivity.
  - rewrite Atoi_digits; [reflexivity | discriminate |].
    destruct Hd as [n Hn]. exists n. exact Hn.
Qed.

(** ** More on goroutines under the mutex *)

Local Open Scope list_scope.

Lemma filter_none {A : Type} (P : A -> Prop) `{!forall x, Decision (P x)}
    (l : list A) :
  Forall (fun x => ~ P x) l -> filter P l = [].
Proof.
  induction 1 as [| x l Hx _ IH]; [done |].
  by rewrite filter_cons_False.
Qed.

Lemma filter_one {A : Type} (P : A -> Prop) `{!forall x, Decision (P x)}
    (l : list A) h x :
  l !! h = Some x -> P x ->
  (forall i y, l !! i = Some y -> i <> h -> ~ P y) ->
  List.length (filter P l) = 1%nat.
Proof.
  intros Hh Hx Hothers.
  rewrite <- (take_drop_middle l h x Hh), filter_app, filter_cons_True by done.
  rewrite !filter_none; [done | |].
  - apply Forall_lookup. intros i y Hi. rewrite lookup_drop in Hi.
    apply (Hothers _ _ Hi). lia.
  - apply Forall_lookup. intros i y Hi.
    apply lookup_take_Some in Hi as [Hi Hlt].
    apply (Hothers _ _ Hi). lia.
Qed.

Lemma in_section_deferUnlock {A : Type} (p : Prog A) :
  lock_free p -> in_section (deferUnlock p) = true.
Proof. destruct p; simpl; intros; done. Qed.

(** In every configuration an execution reaches, the goroutines inside
    their critical sections are as many as the mutex says: one when it is
    held, none when it is free. *)
Lemma Inv_exclusive {A : Type} (bodies : list (Prog A)) books0
    (c : Config A) log holder :
  Inv bodies books0 c log holder ->
  List.length (filter (fun p => in_section p = true) (threads c))
    = if mtx c then 1%nat else 0%nat.
Proof.
  intros (Hlen & Hnd & Hwait & rs & books1 & Hser & Hret & Hh).
  assert (Hout : forall i p, threads c !! i = Some p -> holder <> Some i ->
                   ~ in_section p = true).
  { intros i p Hp Hne.
    destruct (decide (i ∈ log)) as [Hin | Hnin].
    - destruct (returned_in_log _ _ _ _ Hret Hin) as [a Ha].
      rewrite Ha in Hp. by simplify_eq.
    - destruct (lookup_lt_is_Some_2 bodies i) as [body Hb].
      { rewrite <- Hlen. by eapply lookup_lt_Some. }
      rewrite (Hwait i body Hb Hnin Hne) in Hp. by simplify_eq. }
  destruct holder as [h |]; simpl in Hh.
  - destruct Hh as (-> & body & p & _ & Hlf & Hp & _).
    apply (filter_one _ _ h _ Hp); [by apply in_section_deferUnlock |].
    intros i y Hi Hne. apply (Hout i y Hi). congruence.
  - destruct Hh as [-> _]. rewrite filter_none; [done |].
    apply Forall_lookup. intros i p Hp. by apply (Hout i p Hp).
Qed.

(** With the mutex free the only action open to any goroutine is [Lock];
    while it is held only the goroutine inside moves. *)
Lemma Inv_moves_under_mutex {A : Type} (bodies : list (Prog A)) books0
    (c c' : Config A) log holder i :
  Inv bodies books0 c log holder ->
  sched_step i c = Some c' ->
  (mtx c = false -> mtx c' = true /\ shared c' = shared c)
  /\ (mtx c = true ->
      exists p, threads c !! i = Some p /\ in_section p = true).
Proof.
  intros (Hlen & Hnd & Hwait & rs & books1 & Hser & Hret & Hh) Hstep.
  unfold sched_step in Hstep.
  destruct (threads c !! i) as [p|] eqn:Hp; [| done].
  destruct (thread_step p (mtx c) (shared c)) as [[[p' m'] s']|] eqn:Hts;
    [| done].
  simplify_eq.
  destruct (decide (i ∈ log)) as [Hin | Hnin].
  { destruct (returned_in_log _ _ _ _ Hret Hin) as [a Ha].
    rewrite Ha in Hp. by simplify_eq. }
  destruct (lookup_lt_is_Some_2 bodies i) as [body Hb].
  { rewrite <- Hlen. by eapply lookup_lt_Some. }
  destruct (decide (holder = Some i)) as [-> | Hnh].
  - destruct Hh as (Hm & body' & q & _ & Hlf & Hq & _).
    split; [congruence |]. intros _. exists p. split; [done |].
    rewrite Hq in Hp. simplify_eq. by apply in_section_deferUnlock.
  - rewrite (Hwait i body Hb Hnin Hnh) in Hp. simplify_eq.
    simpl in Hts. destruct (mtx c); [done |]. simplify_eq. simpl.
    split; [done | discriminate].
Qed.

Section MoreGoroutines.

Variable json_Decode : string -> Book -> option Book.

(** X13: mutual exclusion.  Whatever the calls and the schedule, at every
    moment of an execution at most one goroutine is between its [Lock] and
    its [Unlock]: exactly one while the mutex is held and none while it is
    free. *)
Theorem mutex_excludes (calls : list Call) books0 sched c :
  exec sched (start (call_body json_Decode <$> calls) books0) = Some c ->
  List.length (filter (fun p => in_section p = true) (threads c))
    = if mtx c then 1%nat else 0%nat.
Proof.
  intros Hex.
  assert (Hlf : Forall lock_free (call_body json_Decode <$> calls)).
  { apply Forall_fmap, Forall_forall. intros x _. apply call_body_lock_free. }
  destruct (Inv_exec _ Hlf books0 sched _ _ _ _ (Inv_start _ books0) Hex)
    as (log & holder & HI).
  by eapply Inv_exclusive.
Qed.

(** Responses come back to the goroutines that asked: if the serial order
    answers the call at position [j] with [f] of some datum of the goroutine
    that made it, every goroutine holds [f] of its own datum. *)
Lemma responses_by_position {A B : Type} (f : B -> A) (res : list A)
    (data picked : list B) (order : list nat) :
  order ≡ₚ seq 0 (List.length res) ->
  List.length data = List.length res ->
  Forall2 (fun i b => data !! i = Some b) order picked ->
  Forall2 (fun i a => res !! i = Some a) order (f <$> picked) ->
  res = f <$> data.
Proof.
  intros Hperm Hlen Hpick Hres.
  apply (list_eq_same_length _ _ (List.length res));
    [by rewrite length_fmap | done |].
  intros i x y Hi Hx Hy.
  assert (Hin : i ∈ order).
  { rewrite Hperm. apply elem_of_seq. lia. }
  apply list_elem_of_lookup in Hin as [j Hj].
  destruct (Forall2_lookup_l _ _ _ _ _ Hpick Hj) as (b & Hb & Hdb).
  destruct (Forall2_lookup_l _ _ _ _ _ Hres Hj) as (a & Ha & Hra).
  rewrite list_lookup_fmap, Hb in Ha. rewrite list_lookup_fmap, Hdb in Hy.
  simpl in *. congruence.
Qed.

(** Creates of pairwise distinct, free, nonzero ids, served one after the
    other in any order, all go through. *)
Lemma distinct_creates_in_order (ordered : list Call) (obs : list Book) books :
  Forall2 (fun c b => exists r, c = CallCreateBook r
                      /\ json_Decode (Body r) zeroBook = Some b) ordered obs ->
  NoDup (ID <$> obs) ->
  Forall (fun b => ID b <> 0 /\ books !! ID b = None) obs ->
  one_at_a_time json_Decode ordered books
    = ((fun b => mkResponse StatusCreated None (JSONBook b)) <$> obs,
       list_to_map ((fun b => (ID b, b)) <$> obs) ∪ books).
Proof.
  intros HF. revert books.
  induction HF as [| c b ordered obs (r & -> & Hd) HF IH];
    intros books Hnd Hfree.
  - simpl. by rewrite (left_id_L ∅ (∪)).
  - rewrite fmap_cons in Hnd. apply NoDup_cons in Hnd as [Hnin Hnd].
    apply Forall_cons in Hfree as [[Hnz Hnew] Hfree].
    cbn [one_at_a_time call_fn].
    rewrite (createBook_created json_Decode r books b Hd Hnz Hnew).
    rewrite IH; [| done |].
    + rewrite !fmap_cons, list_to_map_cons. f_equal.
      rewrite <- insert_union_l. symmetry. apply insert_union_r.
      apply not_elem_of_list_to_map_1.
      rewrite <- list_fmap_compose. exact Hnin.
    + eapply Forall_impl; [apply Forall_and; split; [exact Hfree |] |].
      * apply Forall_forall. intros b' Hb'. instantiate (1 := fun b' => ID b' <> ID b).
        simpl. intros Heq. apply Hnin. rewrite <- Heq.
        apply list_elem_of_fmap. eauto.
      * simpl. intros b' [[Hnz' Hnew'] Hne]. split; [done |].
        by rewrite lookup_insert_ne.
Qed.

(** X14: goroutines creating pairwise distinct ids, all free and nonzero,
    never get in each other's way: whatever the schedule, every one of them
    is answered 201 with its own book and the map ends up with all the
    books added to what it held. *)
Theorem distinct_creates_all_succeed (reqs : list Request) (bs : list Book)
    books0 sched c' res :
  decoded_books json_Decode reqs = Some bs ->
  NoDup (ID <$> bs) ->
  Forall (fun b => ID b <> 0 /\ books0 !! ID b = None) bs ->
  exec sched (start (createBook_body json_Decode <$> reqs) books0) = Some c' ->
  results c' = Some res ->
  res = (fun b => mkResponse StatusCreated None (JSONBook b)) <$> bs
  /\ shared c' = list_to_map ((fun b => (ID b, b)) <$> bs) ∪ books0
  /\ size (shared c') = (List.length reqs + size books0)%nat.
Proof.
  intros Hdec Hnd Hfree Hex Hres.
  assert (Hcalls : createBook_body json_Decode <$> reqs
                   = call_body json_Decode <$> (CallCreateBook <$> reqs))
    by (by rewrite <- list_fmap_compose).
  rewrite Hcalls in Hex.
  destruct (calls_serialized json_Decode _ _ _ _ _ Hex Hres)
    as (order & ordered & Hperm & Ho & Hs & HF & Hlen).
  rewrite length_fmap in Hperm, Hlen.
  unfold decoded_books in Hdec.
  pose proof (length_mapM _ _ _ Hdec) as Hlb.
  apply mapM_Some in Hdec.
  assert (Hobs : exists obs,
             Forall2 (fun i b => bs !! i = Some b) order obs
             /\ Forall2 (fun c b => exists r, c = CallCreateBook r
                   /\ json_Decode (Body r) zeroBook = Some b) ordered obs).
  { clear Hs HF Hperm. induction Ho as [| i c order ordered Hi Ho IH].
    - exists []. split; constructor.
    - destruct IH as (obs & H1 & H2).
      rewrite list_lookup_fmap in Hi.
      destruct (reqs !! i) as [r |] eqn:Hr; simplify_eq/=.
      destruct (Forall2_lookup_l _ _ _ _ _ Hdec Hr) as (b & Hb & Hd).
      exists (b :: obs). split; constructor; eauto. }
  destruct Hobs as (obs & Hpick & Hcr).
  assert (Hpo : obs ≡ₚ bs).
  { eapply picked_permutation; [| exact Hpick]. by rewrite <- Hlb. }
  rewrite (distinct_creates_in_order ordered obs books0 Hcr) in Hs, HF.
  2, 3: by rewrite Hpo.
  2, 3: by rewrite Hpo.
  simpl in Hs, HF.
  assert (Hstore : shared c' = list_to_map ((fun b => (ID b, b)) <$> bs) ∪ books0).
  { rewrite <- Hs. f_equal. apply list_to_map_proper.
    - rewrite <- list_fmap_compose. by rewrite Hpo.
    - by rewrite Hpo. }
  split; [| split; [exact Hstore |]].
  - eapply responses_by_position; [| | exact Hpick | exact HF].
    + by rewrite Hlen.
    + congruence.
  - rewrite Hstore, map_size_disj_union.
    + rewrite map_size_list_to_map.
      * by rewrite length_fmap, <- Hlb.
      * by rewrite <- list_fmap_compose.
    + apply map_disjoint_spec. intros j x y Hx Hy.
      apply elem_of_list_to_map_2, list_elem_of_fmap in Hx as (b & Heq & Hb).
      simplify_eq. rewrite Forall_forall in Hfree.
      destruct (Hfree b Hb) as [_ Hnone]. congruence.
Qed.

Lemma reads_in_order (ordered : list Call) books :
  Forall reading ordered ->
  one_at_a_time json_Decode ordered books
    = ((fun c => (call_fn json_Decode c books).1) <$> ordered, books).
Proof.
  induction 1 as [| c ordered Hc _ IH]; [done |].
  cbn [one_at_a_time]. rewrite fmap_cons.
  destruct c as [r | r | r | r | r]; try contradiction; cbn [call_fn].
  - unfold getAllBooks. by rewrite IH.
  - assert (Hsame : (getBookById r books).2 = books).
    { unfold getBookById. by repeat case_match. }
    destruct (getBookById r books) as [resp books1]. simpl in Hsame.
    subst books1. by rewrite IH.
Qed.

(** X15: goroutines that only read (GET on either route) leave the map as
    it was and each is answered exactly as if it had been alone: the
    response is the one the handler gives on the initial map, whatever the
    schedule. *)
Theorem concurrent_reads_agree (calls : list Call) books0 sched c' res :
  Forall reading calls ->
  exec sched (start (call_body json_Decode <$> calls) books0) = Some c' ->
  results c' = Some res ->
  shared c' = books0
  /\ res = (fun c => (call_fn json_Decode c books0).1) <$> calls.
Proof.
  intros Hread Hex Hres.
  destruct (calls_serialized json_Decode _ _ _ _ _ Hex Hres)
    as (order & ordered & Hperm & Ho & Hs & HF & Hlen).
  assert (Hro : Forall reading ordered).
  { apply Forall_forall. intros c Hc.
    apply list_elem_of_lookup in Hc as [n Hn].
    destruct (Forall2_lookup_r _ _ _ _ _ Ho Hn) as (i & _ & Hi).
    by eapply Forall_lookup_1. }
  rewrite (reads_in_order ordered books0 Hro) in Hs, HF. simpl in Hs, HF.
  split; [done |].
  eapply responses_by_position; [| | exact Ho | exact HF].
  - by rewrite Hlen.
  - done.
Qed.

Lemma one_at_a_time_two (x0 x1 : Call) books :
  one_at_a_time json_Decode [x0; x1] books
    = ([(call_fn json_Decode x0 books).1;
        (call_fn json_Decode x1 (call_fn json_Decode x0 books).2).1],
       (call_fn json_Decode x1 (call_fn json_Decode x0 books).2).2).
Proof.
  cbn [one_at_a_time]. destruct (call_fn json_Decode x0 books) as [r0 s0].
  cbn [fst snd]. by destruct (call_fn json_Decode x1 s0) as [r1 s1].
Qed.

(** Two goroutines: one of the two serial orders. *)
Lemma two_calls_serialized (c0 c1 : Call) books0 sched c' res :
  exec sched (start (call_body json_Decode <$> [c0; c1]) books0) = Some c' ->
  results c' = Some res ->
  (res = [(call_fn json_Decode c0 books0).1;
          (call_fn json_Decode c1 (call_fn json_Decode c0 books0).2).1]
   /\ shared c'
      = (call_fn json_Decode c1 (call_fn json_Decode c0 books0).2).2)
  \/ (res = [(call_fn json_Decode c0 (call_fn json_Decode c1 books0).2).1;
             (call_fn json_Decode c1 books0).1]
      /\ shared c'
         = (call_fn json_Decode c0 (call_fn json_Decode c1 books0).2).2).
Proof.
  intros Hex Hres.
  destruct (calls_serialized json_Decode _ _ _ _ _ Hex Hres)
    as (order & ordered & Hperm & Ho & Hs & HF & Hlen).
  simpl in Hperm, Hlen.
  destruct res as [| a0 [| a1 [| ? ?]]]; try discriminate Hlen.
  symmetry in Hperm. apply Permutation_length_2_inv in Hperm as [-> | ->].
  - left.
    apply Forall2_cons_inv_l in Ho as (x0 & l0 & H0 & Ho & ->).
    apply Forall2_cons_inv_l in Ho as (x1 & l1 & H1 & Ho & ->).
    apply Forall2_nil_inv_l in Ho as ->. simpl in H0, H1. simplify_eq.
    rewrite one_at_a_time_two in Hs, HF. cbn [fst snd] in Hs, HF.
    apply Forall2_cons_1 in HF as [Ha HF].
    apply Forall2_cons_1 in HF as [Hb _]. simpl in Ha, Hb.
    by simplify_eq.
  - right.
    apply Forall2_cons_inv_l in Ho as (x0 & l0 & H0 & Ho & ->).
    apply Forall2_cons_inv_l in Ho as (x1 & l1 & H1 & Ho & ->).
    apply Forall2_nil_inv_l in Ho as ->. simpl in H0, H1. simplify_eq.
    rewrite one_at_a_time_two in Hs, HF. cbn [fst snd] in Hs, HF.
    apply Forall2_cons_1 in HF as [Ha HF].
    apply Forall2_cons_1 in HF as [Hb _]. simpl in Ha, Hb.
    by simplify_eq.
Qed.

(** X16: a create and a delete of the same free id racing each other end in
    one of two ways and no other: the create first (201, then 204, the map
    as before), or the delete first (404 for the delete, 201 for the create,
    the book stored). *)
Theorem create_delete_race r d b i books0 sched c' res :
  json_Decode (Body r) zeroBook = Some b -> ID b = i -> i <> 0 ->
  path_id d = Some i ->
  books0 !! i = None ->
  exec sched (start (call_body json_Decode
                       <$> [CallCreateBook r; CallDeleteBook d]) books0)
    = Some c' ->
  results c' = Some res ->
  (res = [mkResponse StatusCreated None (JSONBook b);
          mkResponse StatusNoContent None NoBody]
   /\ shared c' = books0)
  \/ (res = [mkResponse StatusCreated None (JSONBook b);
             http_Error "Book not found" StatusNotFound]
      /\ shared c' = <[i := b]> books0).
Proof.
  intros Hd Hid Hnz Hp Hnew Hex Hres.
  assert (Hnz' : ID b <> 0) by congruence.
  assert (Hnew' : books0 !! ID b = None) by congruence.
  destruct (two_calls_serialized _ _ _ _ _ _ Hex Hres) as [[-> ->] | [-> ->]];
    cbn [call_fn].
  - left.
    rewrite (createBook_created json_Decode r books0 b Hd Hnz' Hnew').
    cbn [fst snd]. rewrite Hid.
    rewrite (deleteBook_present d _ i b Hp (lookup_insert_eq _ _ _)).
    cbn [fst snd]. by rewrite delete_insert_id.
  - right. rewrite (deleteBook_absent d books0 i Hp Hnew). cbn [fst snd].
    rewrite (createBook_created json_Decode r books0 b Hd Hnz' Hnew').
    cbn [fst snd]. by rewrite Hid.
Qed.

(** X17: a GET racing a PUT on the same stored id never sees a mixture: it
    is answered with the whole old record or with the whole new one, the
    PUT is answered 200 either way, and the map ends with the new record. *)
Theorem update_get_race u g b i old books0 sched c' res :
  path_id u = Some i -> path_id g = Some i ->
  books0 !! i = Some old ->
  json_Decode (Body u) zeroBook = Some b -> ID b = i ->
  exec sched (start (call_body json_Decode
                       <$> [CallUpdateBook u; CallGetBookById g]) books0)
    = Some c' ->
  results c' = Some res ->
  shared c' = <[i := b]> books0
  /\ (res = [mkResponse StatusOK None (JSONBook b); okJSON (JSONBook b)]
      \/ res = [mkResponse StatusOK None (JSONBook b);
                okJSON (JSONBook old)]).
Proof.
  intros Hpu Hpg Hold Hd Hid Hex Hres.
  destruct (two_calls_serialized _ _ _ _ _ _ Hex Hres) as [[-> ->] | [-> ->]];
    cbn [call_fn].
  - rewrite (updateBook_replaced json_Decode u books0 i old b Hpu Hold Hd Hid).
    cbn [fst snd].
    rewrite (getBookById_found g _ i b Hpg (lookup_insert_eq _ _ _)).
    split; [reflexivity | by left].
  - rewrite (getBookById_found g books0 i old Hpg Hold). cbn [fst snd].
    rewrite (updateBook_replaced json_Decode u books0 i old b Hpu Hold Hd Hid).
    split; [reflexivity | by right].
Qed.

(** X18: among goroutines creating the same free id, the one answered 201
    is the one whose book is stored: the map ends as the initial map plus
    that goroutine's book, whole, and nothing of the others' bodies. *)
Theorem same_id_creates_store_winner (reqs : list Request) id books0
    sched c' res :
  reqs <> [] -> id <> 0 -> books0 !! id = None ->
  Forall (creates_id json_Decode id) reqs ->
  exec sched (start (createBook_body json_Decode <$> reqs) books0) = Some c' ->
  results c' = Some res ->
  exists k r b,
    reqs !! k = Some r
    /\ json_Decode (Body r) zeroBook = Some b
    /\ res !! k = Some (mkResponse StatusCreated None (JSONBook b))
    /\ shared c' = <[id := b]> books0.
Proof.
  intros Hne Hid Hnew Hreqs Hex Hres.
  assert (Hcalls : createBook_body json_Decode <$> reqs
                   = call_body json_Decode <$> (CallCreateBook <$> reqs))
    by (by rewrite <- list_fmap_compose).
  rewrite Hcalls in Hex.
  destruct (calls_serialized json_Decode _ _ _ _ _ Hex Hres)
    as (order & ordered & Hperm & Ho & Hs & HF & Hlen).
  rewrite length_fmap in Hperm, Hlen.
  assert (Hcr : Forall (creating json_Decode id) ordered).
  { apply Forall_forall. intros c Hc.
    apply list_elem_of_lookup in Hc as [n Hn].
    destruct (Forall2_lookup_r _ _ _ _ _ Ho Hn) as (i & _ & Hi).
    rewrite list_lookup_fmap in Hi.
    destruct (reqs !! i) as [r|] eqn:Hr; simplify_eq/=.
    exists r. split; [done |]. by eapply Forall_lookup_1. }
  destruct Ho as [| k c order ordered Hk Ho].
  { apply Permutation_length in Hperm. rewrite length_seq in Hperm.
    destruct reqs; [done | discriminate]. }
  rewrite list_lookup_fmap in Hk.
  destruct (reqs !! k) as [r |] eqn:Hr; simplify_eq/=.
  apply Forall_cons in Hcr as [_ Hcr].
  destruct (Forall_lookup_1 _ _ _ _ Hreqs Hr) as (b & Hd & Hb).
  assert (Hnz : ID b <> 0) by congruence.
  assert (Hnew' : books0 !! ID b = None) by congruence.
  rewrite (createBook_created json_Decode r books0 b Hd Hnz Hnew') in Hs, HF.
  destruct (creates_after_first json_Decode id Hid ordered
              (<[ID b := b]> books0) Hcr) as [Hsame _].
  { rewrite <- Hb, lookup_insert_eq. eauto. }
  destruct (one_at_a_time json_Decode ordered (<[ID b := b]> books0))
    as [rs books2].
  simpl in *. subst books2.
  apply Forall2_cons_1 in HF as [Hk _].
  exists k, r, b. rewrite <- Hb. done.
Qed.

(** X20: every access to the map is made under the mutex.  In any execution,
    a goroutine that moves while the mutex is free can only be taking it
    (the map is untouched by that step), and a goroutine that moves while
    the mutex is held is the one inside its critical section; so a step
    that changes the map is always taken with the mutex held. *)
Theorem accesses_hold_the_mutex (calls : list Call) books0 sched c i c' :
  exec sched (start (call_body json_Decode <$> calls) books0) = Some c ->
  sched_step i c = Some c' ->
  (mtx c = false -> mtx c' = true /\ shared c' = shared c)
  /\ (mtx c = true ->
      exists p, threads c !! i = Some p /\ in_section p = true)
  /\ (shared c' <> shared c -> mtx c = true).
Proof.
  intros Hex Hstep.
  assert (Hlf : Forall lock_free (call_body json_Decode <$> calls)).
  { apply Forall_fmap, Forall_forall. intros x _. apply call_body_lock_free. }
  destruct (Inv_exec _ Hlf books0 sched _ _ _ _ (Inv_start _ books0) Hex)
    as (log & holder & HI).
  destruct (Inv_moves_under_mutex _ _ _ _ _ _ _ HI Hstep) as [Hfree Hheld].
  split; [exact Hfree |]. split; [exact Hheld |].
  intros Hchg. destruct (mtx c) eqn:Hm; [done |].
  destruct (Hfree eq_refl) as [_ Hsame]. contradiction.
Qed.

End MoreGoroutines.

Section MoreReachable.

Variable json_Decode : string -> Book -> option Book.

(** X19: in every reachable map a GET answered 200 returns a record whose
    own id field is the id asked for in the path, and that record is the
    one stored under it. *)
Theorem get_returns_requested_id books g i b :
  reachable json_Decode books ->
  path_id g = Some i ->
  (getBookById g books).1 = okJSON (JSONBook b) ->
  ID b = i /\ books !! i = Some b.
Proof.
  intros Hr Hp Hget. pose proof (reachable_keyed json_Decode books Hr) as Hk.
  unfold path_id in Hp. unfold getBookById in Hget. rewrite Hp in Hget.
  destruct (books !! i) as [b' |] eqn:Hb; [| discriminate].
  simpl in Hget. injection Hget as <-. split; [by apply Hk | done].
Qed.

End MoreReachable.

Local Open Scope string_scope.

(** ** The second part of the contract on concrete requests *)

Lemma unparseable_id_is_bad_request_witness :
  booksItem flat_Decode (PUT "/books/abc" body_dune) shelf_dune
    = (http_Error "Invalid book ID" StatusBadRequest, shelf_dune).
Proof.
  apply (unparseable_id_is_bad_request flat_Decode
           (PUT "/books/abc" body_dune) shelf_dune).
  - vm_compute. reflexivity.
  - right. left. reflexivity.
Defined.


(** One more than the largest [int] is no id at all. *)
Example path_id_too_large :
  path_id (GET "/books/9223372036854775808") = None
  /\ (booksItem flat_Decode (GET "/books/9223372036854775808") shelf_dune).1
     = http_Error "Invalid book ID" StatusBadRequest.
Proof. vm_compute. split; reflexivity. Qed.

Lemma stored_book_has_a_path_witness :
  exists path,
    strings_HasPrefix path "/books/" = true
    /\ path <> "/books"
    /\ forall body,
         ServeMux flat_Decode (mkRequest "GET" path body) shelf_dune
           = (okJSON (JSONBook dune), shelf_dune).
Proof.
  apply (stored_book_has_a_path flat_Decode shelf_dune 7 dune).
  - reflexivity.
  - vm_compute. split; discriminate.
Defined.

Lemma other_ids_untouched_witness :
  (ServeMux flat_Decode (DELETE "/books/7") shelf_two).2 !! 5
    = shelf_two !! 5
  /\ (booksItem flat_Decode (DELETE "/books/7") shelf_two).2 !! 5
     = shelf_two !! 5.
Proof.
  apply (other_ids_untouched flat_Decode (DELETE "/books/7") shelf_two 5).
  vm_compute. discriminate.
Defined.

Lemma size_follows_status_witness :
  size (ServeMux flat_Decode (POST "/books/7" body_dune) shelf_emma).2
    = S (size shelf_emma)
  /\ S (size (ServeMux flat_Decode (DELETE "/books/5") shelf_emma).2)
     = size shelf_emma
  /\ size (ServeMux flat_Decode put_5_id_6 shelf_emma).2 = size shelf_emma.
Proof.
  split; [| split].
  - apply (size_follows_status flat_Decode (POST "/books/7" body_dune)
             shelf_emma). vm_compute. reflexivity.
  - apply (size_follows_status flat_Decode (DELETE "/books/5") shelf_emma).
    vm_compute. reflexivity.
  - apply (size_follows_status flat_Decode put_5_id_6 shelf_emma);
      vm_compute; discriminate.
Defined.

Lemma store_changes_only_on_success_witness :
  (Method (POST "/books/7" body_dune) = "POST"
   /\ Status (ServeMux flat_Decode (POST "/books/7" body_dune) ∅).1
      = StatusCreated)
  \/ (Method (POST "/books/7" body_dune) = "PUT"
      /\ Status (ServeMux flat_Decode (POST "/books/7" body_dune) ∅).1
         = StatusOK)
  \/ (Method (POST "/books/7" body_dune) = "DELETE"
      /\ Status (ServeMux flat_Decode (POST "/books/7" body_dune) ∅).1
         = StatusNoContent).
Proof.
  apply (store_changes_only_on_success flat_Decode
           (POST "/books/7" body_dune) ∅).
  intros H. apply (f_equal (fun m : Store => m !! 7)) in H.
  vm_compute in H. discriminate H.
Defined.

Lemma create_then_delete_restores_witness :
  Status (booksItem flat_Decode (POST "/books/7" body_dune) shelf_emma).1
    = StatusCreated
  /\ booksItem flat_Decode (DELETE "/books/7")
       (booksItem flat_Decode (POST "/books/7" body_dune) shelf_emma).2
     = (mkResponse StatusNoContent None NoBody, shelf_emma).
Proof.
  apply (create_then_delete_restores flat_Decode (POST "/books/7" body_dune)
           (DELETE "/books/7") shelf_emma dune).
  - reflexivity.
  - vm_compute. reflexivity.
  - simpl. lia.
  - vm_compute. reflexivity.
  - reflexivity.
  - vm_compute. reflexivity.
Defined.

Lemma last_put_wins_witness :
  booksItem flat_Decode (PUT "/books/1" body_first_edition)
    (booksItem flat_Decode (PUT "/books/1" body_title_only)
       shelf_first_edition).2
    = booksItem flat_Decode (PUT "/books/1" body_first_edition)
        shelf_first_edition
  /\ booksItem flat_Decode (PUT "/books/1" body_title_only)
       (booksItem flat_Decode (PUT "/books/1" body_title_only)
          shelf_first_edition).2
     = booksItem flat_Decode (PUT "/books/1" body_title_only)
         shelf_first_edition.
Proof.
  apply (last_put_wins flat_Decode (PUT "/books/1" body_title_only)
           (PUT "/books/1" body_first_edition) shelf_first_edition 1
           first_edition title_only first_edition);
    solve [reflexivity | vm_compute; reflexivity].
Defined.

Lemma zero_id_never_stored_witness :
  (ServeMux flat_Decode (POST "/books/7" body_dune) ∅).2 !! 0 = None
  /\ (forall r, path_id r = Some 0 ->
        Method r = "GET" \/ Method r = "PUT" \/ Method r = "DELETE" ->
        booksItem flat_Decode r
          (ServeMux flat_Decode (POST "/books/7" body_dune) ∅).2
          = (http_Error "Book not found" StatusNotFound,
             (ServeMux flat_Decode (POST "/books/7" body_dune) ∅).2)).
Proof.
  apply (zero_id_never_stored flat_Decode).
  apply reachable_ServeMux. apply reachable_empty.
Defined.

Lemma delete_then_create_again_witness :
  Status (booksItem flat_Decode (DELETE "/books/1") shelf_first_edition).1
    = StatusNoContent
  /\ booksItem flat_Decode (POST "/books/1" body_title_only)
       (booksItem flat_Decode (DELETE "/books/1") shelf_first_edition).2
     = (mkResponse StatusCreated None (JSONBook title_only),
        <[1 := title_only]> shelf_first_edition).
Proof.
  apply (delete_then_create_again flat_Decode (DELETE "/books/1")
           (POST "/books/1" body_title_only) shelf_first_edition 1
           first_edition title_only);
    solve [reflexivity | vm_compute; reflexivity | lia].
Defined.

Lemma empty_store_only_create_witness :
  booksItem flat_Decode (DELETE "/books/7") ∅
    = (http_Error "Book not found" StatusNotFound, ∅)
  /\ (ServeMux flat_Decode (PUT "/books/7" body_dune) ∅).2 = ∅.
Proof.
  split.
  - apply (empty_store_only_create flat_Decode (DELETE "/books/7")) with 7.
    + vm_compute. reflexivity.
    + right. right. reflexivity.
  - apply (empty_store_only_create flat_Decode (PUT "/books/7" body_dune)).
    discriminate.
Defined.

Lemma padded_path_same_id_witness :
  path_id (GET "/books/+7") = path_id (GET "/books/7")
  /\ path_id (GET "/books/07") = path_id (GET "/books/7").
Proof.
  apply (padded_path_same_id "7" "GET" EmptyString).
  - discriminate.
  - exists 7. reflexivity.
Defined.

(** The three paths of book 7. *)
Example padded_paths :
  (booksItem flat_Decode (GET "/books/007") shelf_dune).1
    = okJSON (JSONBook dune)
  /\ (booksItem flat_Decode (GET "/books/+7") shelf_dune).1
     = okJSON (JSONBook dune)
  /\ (booksItem flat_Decode (GET "/books/7") shelf_dune).1
     = okJSON (JSONBook dune).
Proof. vm_compute. repeat split; reflexivity. Qed.

Lemma get_returns_requested_id_witness :
  ID dune = 7
  /\ (ServeMux flat_Decode (POST "/books/7" body_dune) ∅).2 !! 7 = Some dune.
Proof.
  apply (get_returns_requested_id flat_Decode _ (GET "/books/7") 7 dune).
  - apply reachable_ServeMux. apply reachable_empty.
  - vm_compute. reflexivity.
  - vm_compute. reflexivity.
Defined.

(** While the second goroutine is past its [Lock] and its lookup, it is the
    only one inside. *)
Lemma mutex_excludes_witness :
  exists c,
    exec [1; 1]%nat
      (start (call_body flat_Decode <$> (CallCreateBook <$> three_creates)) ∅)
      = Some c
    /\ mtx c = true
    /\ List.length (filter (fun p => in_section p = true) (threads c))
       = if mtx c then 1%nat else 0%nat.
Proof.
  eexists. split; [vm_compute; reflexivity |].
  split; [reflexivity |].
  apply (mutex_excludes flat_Decode (CallCreateBook <$> three_creates) ∅
           [1; 1]%nat).
  vm_compute. reflexivity.
Defined.

Lemma distinct_creates_all_succeed_witness :
  exists c' res,
    exec [2; 2; 2; 2; 0; 0; 0; 0; 1; 1; 1; 1]%nat
      (start (createBook_body flat_Decode <$> three_distinct_creates) ∅)
      = Some c'
    /\ results c' = Some res
    /\ res = (fun b => mkResponse StatusCreated None (JSONBook b))
               <$> one_two_three
    /\ shared c' = list_to_map ((fun b => (ID b, b)) <$> one_two_three) ∪ ∅
    /\ size (shared c')
       = (List.length three_distinct_creates + size (∅ : Store))%nat.
Proof.
  eexists _, _.
  split; [vm_compute; reflexivity |].
  split; [vm_compute; reflexivity |].
  eapply (distinct_creates_all_succeed flat_Decode three_distinct_creates
            one_two_three ∅
            [2; 2; 2; 2; 0; 0; 0; 0; 1; 1; 1; 1]%nat).
  - vm_compute. reflexivity.
  - apply (bool_decide_unpack _). vm_compute. exact I.
  - repeat constructor; (discriminate || reflexivity).
  - vm_compute. reflexivity.
  - vm_compute. reflexivity.
Defined.

Lemma concurrent_reads_agree_witness :
  exists c' res,
    exec [1; 1; 0; 0; 0; 1]%nat
      (start (call_body flat_Decode
                <$> [CallGetBookById (GET "/books/7");
                     CallGetAllBooks (GET "/books")]) shelf_dune)
      = None
    /\ exec [1; 1; 1; 0; 0; 0]%nat
         (start (call_body flat_Decode
                   <$> [CallGetBookById (GET "/books/7");
                        CallGetAllBooks (GET "/books")]) shelf_dune)
       = Some c'
    /\ results c' = Some res
    /\ shared c' = shelf_dune
    /\ res = (fun c => (call_fn flat_Decode c shelf_dune).1)
               <$> [CallGetBookById (GET "/books/7");
                    CallGetAllBooks (GET "/books")].
Proof.
  eexists _, _.
  split; [vm_compute; reflexivity |].
  split; [vm_compute; reflexivity |].
  split; [vm_compute; reflexivity |].
  eapply (concurrent_reads_agree flat_Decode
            [CallGetBookById (GET "/books/7"); CallGetAllBooks (GET "/books")]
            shelf_dune [1; 1; 1; 0; 0; 0]%nat).
  - repeat constructor.
  - vm_compute. reflexivity.
  - vm_compute. reflexivity.
Defined.

(** The delete runs first and finds nothing; the create then goes
    through. *)
Lemma create_delete_race_witness :
  exists c' res,
    exec [1; 1; 1; 0; 0; 0; 0]%nat
      (start (call_body flat_Decode
                <$> [CallCreateBook (POST "/books/7" body_dune);
                     CallDeleteBook (DELETE "/books/7")]) ∅)
      = Some c'
    /\ results c' = Some res
    /\ ((res = [mkResponse StatusCreated None (JSONBook dune);
                mkResponse StatusNoContent None NoBody]
         /\ shared c' = ∅)
        \/ (res = [mkResponse StatusCreated None (JSONBook dune);
                   http_Error "Book not found" StatusNotFound]
            /\ shared c' = <[7 := dune]> ∅)).
Proof.
  eexists _, _.
  split; [vm_compute; reflexivity |].
  split; [vm_compute; reflexivity |].
  eapply (create_delete_race flat_Decode (POST "/books/7" body_dune)
            (DELETE "/books/7") dune 7 ∅ [1; 1; 1; 0; 0; 0; 0]%nat).
  - vm_compute. reflexivity.
  - reflexivity.
  - lia.
  - vm_compute. reflexivity.
  - reflexivity.
  - vm_compute. reflexivity.
  - vm_compute. reflexivity.
Defined.

(** Both outcomes of that race happen: here the create runs first. *)
Example create_delete_race_other_order :
  exists c',
    exec [0; 0; 0; 0; 1; 1; 1; 1]%nat
      (start (call_body flat_Decode
                <$> [CallCreateBook (POST "/books/7" body_dune);
                     CallDeleteBook (DELETE "/books/7")]) ∅)
      = Some c'
    /\ results c' = Some [mkResponse StatusCreated None (JSONBook dune);
                          mkResponse StatusNoContent None NoBody]
    /\ shared c' = ∅.
Proof. eexists. repeat split; vm_compute; reflexivity. Qed.

(** The GET runs first and sees the old record, whole. *)
Lemma update_get_race_witness :
  exists c' res,
    exec [1; 1; 1; 0; 0; 0; 0]%nat
      (start (call_body flat_Decode
                <$> [CallUpdateBook (PUT "/books/1" body_title_only);
                     CallGetBookById (GET "/books/1")]) shelf_first_edition)
      = Some c'
    /\ results c' = Some res
    /\ shared c' = <[1 := title_only]> shelf_first_edition
    /\ (res = [mkResponse StatusOK None (JSONBook title_only);
               okJSON (JSONBook title_only)]
        \/ res = [mkResponse StatusOK None (JSONBook title_only);
                  okJSON (JSONBook first_edition)]).
Proof.
  eexists _, _.
  split; [vm_compute; reflexivity |].
  split; [vm_compute; reflexivity |].
  eapply (update_get_race flat_Decode (PUT "/books/1" body_title_only)
            (GET "/books/1") title_only 1 first_edition shelf_first_edition
            [1; 1; 1; 0; 0; 0; 0]%nat).
  - vm_compute. reflexivity.
  - vm_compute. reflexivity.
  - reflexivity.
  - vm_compute. reflexivity.
  - reflexivity.
  - vm_compute. reflexivity.
  - vm_compute. reflexivity.
Defined.

(** Of the three goroutines creating id 9 the second one wins, and it is
    its book, title and all, that is stored. *)
Lemma same_id_creates_store_winner_witness :
  exists c' res,
    exec [1; 1; 1; 1; 0; 0; 0; 2; 2; 2]%nat
      (start (createBook_body flat_Decode <$> three_creates) ∅) = Some c'
    /\ results c' = Some res
    /\ shared c' = <[9 := nine_titled]> ∅
    /\ exists k r b,
         three_creates !! k = Some r
         /\ flat_Decode (Body r) zeroBook = Some b
         /\ res !! k = Some (mkResponse StatusCreated None (JSONBook b))
         /\ shared c' = <[9 := b]> ∅.
Proof.
  eexists _, _.
  split; [vm_compute; reflexivity |].
  split; [vm_compute; reflexivity |].
  split; [vm_compute; reflexivity |].
  eapply (same_id_creates_store_winner flat_Decode three_creates 9 ∅
            [1; 1; 1; 1; 0; 0; 0; 2; 2; 2]%nat).
  - discriminate.
  - lia.
  - reflexivity.
  - repeat constructor; eexists; (split; [vm_compute; reflexivity | reflexivity]).
  - vm_compute. reflexivity.
  - vm_compute. reflexivity.
Defined.

(** The third action of the second goroutine is its write to the map: it is
    taken with the mutex held. *)
Lemma accesses_hold_the_mutex_witness :
  exists c c',
    exec [1; 1]%nat
      (start (call_body flat_Decode <$> (CallCreateBook <$> three_creates)) ∅)
      = Some c
    /\ sched_step 1 c = Some c'
    /\ shared c' <> shared c
    /\ mtx c = true.
Proof.
  eexists _, _.
  split; [vm_compute; reflexivity |].
  split; [vm_compute; reflexivity |].
  assert (Hchg : forall s s' : Store, s' !! 9 <> s !! 9 -> s' <> s)
    by (intros s s' Hne ->; contradiction).
  split.
  - apply Hchg. vm_compute. discriminate.
  - eapply (accesses_hold_the_mutex flat_Decode
              (CallCreateBook <$> three_creates) ∅ [1; 1]%nat _ 1%nat).
    + vm_compute. reflexivity.
    + vm_compute. reflexivity.
    + apply Hchg. vm_compute. discriminate.
Defined.
